(** * Balance engine of the accounting application

    A shallow embedding of [src/lib/balance-engine.ts]: the ledger records,
    the per-account and per-contact balance calculators, the double-entry
    validator, the per-type summary and the accounting-equation check.

    Numbers.  A TypeScript [number] is an IEEE 754 binary64 value.  The
    engine is embedded twice from the same source.

    - [Binary64] has [number] as the primitive [float]: [+], [-],
      [Math.abs], [<] and [>=] round, overflow and propagate NaN as they do
      in JavaScript.  What the code returns on a given ledger is what this
      embedding computes.
    - [BalanceEngine] has [number] as an exact rational ([Q]), compared with
      [==]: no rounding, no infinity, no NaN.  It carries the statements that
      are about exact arithmetic, and those whose proof uses no arithmetic
      fact.

    Strings are [string] (lists of 8-bit characters); [toLowerCase] maps the
    letters [A]..[Z] to [a]..[z] and leaves every other character alone.

    A [Map<string, number>] is a [gmap]: [get] is lookup, [set] is insert. *)

From Stdlib Require Import QArith Qabs Lqa String Ascii List Bool Floats.
From stdpp Require Import gmap strings.
Import ListNotations.

Local Open Scope Q_scope.
Local Open Scope string_scope.

(** ** Data model *)

Inductive TransactionType := TxIncome | TxExpense | TxTransfer.
Inductive ContactType := Customer | Vendor.
Inductive AccountType := Asset | Liability | Equity | Revenue | Expense.
Inductive InvoiceStatus := Draft | Sent | Paid | Overdue.

Definition TransactionType_eqb (a b : TransactionType) : bool :=
  match a, b with
  | TxIncome, TxIncome | TxExpense, TxExpense | TxTransfer, TxTransfer => true
  | _, _ => false
  end.

Definition ContactType_eqb (a b : ContactType) : bool :=
  match a, b with
  | Customer, Customer | Vendor, Vendor => true
  | _, _ => false
  end.

Definition AccountType_eqb (a b : AccountType) : bool :=
  match a, b with
  | Asset, Asset | Liability, Liability | Equity, Equity
  | Revenue, Revenue | Expense, Expense => true
  | _, _ => false
  end.

Definition InvoiceStatus_eqb (a b : InvoiceStatus) : bool :=
  match a, b with
  | Draft, Draft | Sent, Sent | Paid, Paid | Overdue, Overdue => true
  | _, _ => false
  end.

Module Transaction.
Record t := mk {
  id : string;
  date : string;
  description : string;
  amount : Q;
  type : TransactionType;
  debitAccount : string;
  creditAccount : string;
  category : option string;
  contact : option string;
  contactType : option ContactType
}.
End Transaction.

Module Account.
Record t := mk {
  id : string;
  name : string;
  type : AccountType;
  code : string;
  balance : option Q
}.
End Account.

Module Contact.
Record t := mk {
  id : string;
  name : string;
  type : ContactType;
  balance : option Q
}.
End Contact.

Module Invoice.
Record t := mk {
  id : string;
  customerId : string;
  amount : Q;
  status : InvoiceStatus;
  date : string;
  dueDate : string
}.
End Invoice.

(** [x === s] where [x] is an optional field and [s] a string: [undefined]
    is never equal to a string. *)
Definition optStringIs (x : option string) (s : string) : bool :=
  match x with
  | Some y => String.eqb y s
  | None => false
  end.

Definition optContactTypeIs (x : option ContactType) (c : ContactType) : bool :=
  match x with
  | Some y => ContactType_eqb y c
  | None => false
  end.

(** [a < b] on numbers. *)
Definition Qltb (a b : Q) : bool := negb (Qle_bool b a).

(** [xs.reduce((sum, x) => sum + f(x), 0)] *)
Definition reduceSum {A : Type} (f : A -> Q) (xs : list A) : Q :=
  fold_left (fun sum x => sum + f x) xs 0.

(** [s.toLowerCase()] *)
Definition toLowerAscii (c : ascii) : ascii :=
  let n := nat_of_ascii c in
  if (65 <=? n)%nat && (n <=? 90)%nat then ascii_of_nat (n + 32) else c.

Fixpoint toLowerCase (s : string) : string :=
  match s with
  | EmptyString => EmptyString
  | String c rest => String (toLowerAscii c) (toLowerCase rest)
  end.

(** [s.includes(pat)]: [pat] occurs in [s] at some position. *)
Fixpoint includes (s pat : string) : bool :=
  String.prefix pat s ||
  match s with
  | EmptyString => false
  | String _ rest => includes rest pat
  end.

(** The object returned by [getAccountTypeSummary]. *)
Module Summary.
Record t := mk {
  asset : Q;
  liability : Q;
  equity : Q;
  revenue : Q;
  expense : Q
}.

(** [summary[type]] *)
Definition get (summary : t) (type : AccountType) : Q :=
  match type with
  | Asset => asset summary
  | Liability => liability summary
  | Equity => equity summary
  | Revenue => revenue summary
  | Expense => expense summary
  end.

(** [summary[type] += balance] *)
Definition add (summary : t) (type : AccountType) (balance : Q) : t :=
  match type with
  | Asset => mk (asset summary + balance) (liability summary)
                (equity summary) (revenue summary) (expense summary)
  | Liability => mk (asset summary) (liability summary + balance)
                    (equity summary) (revenue summary) (expense summary)
  | Equity => mk (asset summary) (liability summary)
                 (equity summary + balance) (revenue summary) (expense summary)
  | Revenue => mk (asset summary) (liability summary)
                  (equity summary) (revenue summary + balance) (expense summary)
  | Expense => mk (asset summary) (liability summary)
                  (equity summary) (revenue summary) (expense summary + balance)
  end.
End Summary.

(** The object returned by [validateTransactionBalance]. *)
Module LedgerCheck.
Record t := mk {
  isValid : bool;
  totalDebits : Q;
  totalCredits : Q;
  difference : Q
}.
End LedgerCheck.

(** The object returned by [verifyAccountingEquation]. *)
Module EquationCheck.
Record t := mk {
  isBalanced : bool;
  assets : Q;
  liabilities : Q;
  equity : Q;
  difference : Q
}.
End EquationCheck.

(** [v || 0] for an optional number [v]: [undefined] and [0] are falsy. *)
Definition orZero (v : option Q) : Q :=
  match v with
  | Some b => if Qeq_bool b 0 then 0 else b
  | None => 0
  end.

(** [x === c] where [x] is an optional account type. *)
Definition optAccountTypeIs (x : option AccountType) (c : AccountType) : bool :=
  match x with
  | Some y => AccountType_eqb y c
  | None => false
  end.

Module BalanceEngine.

(** [["asset", "expense"].includes(accountType)] *)
Definition debitIncreases (accountType : AccountType) : bool :=
  existsb (AccountType_eqb accountType) [Asset; Expense].

(** The body of the [for] loop of [calculateAccountBalance]: the running
    [balance] after one more transaction. *)
Definition postTransaction (accountId : string) (accountType : AccountType)
    (balance : Q) (transaction : Transaction.t) : Q :=
  let balance :=
    if String.eqb (Transaction.debitAccount transaction) accountId then
      if debitIncreases accountType
      then balance + Transaction.amount transaction
      else balance - Transaction.amount transaction
    else balance in
  let balance :=
    if String.eqb (Transaction.creditAccount transaction) accountId then
      if debitIncreases accountType
      then balance - Transaction.amount transaction
      else balance + Transaction.amount transaction
    else balance in
  balance.

Definition calculateAccountBalance (accountId : string)
    (accountType : AccountType) (transactions : list Transaction.t) : Q :=
  fold_left (postTransaction accountId accountType) transactions 0.

Definition calculateCustomerBalance (customerId : string)
    (invoices : list Invoice.t) (transactions : list Transaction.t) : Q :=
  let balance := 0 in
  let customerInvoices :=
    List.filter (fun inv =>
      String.eqb (Invoice.customerId inv) customerId
      && negb (InvoiceStatus_eqb (Invoice.status inv) Paid)) invoices in
  let balance := balance + reduceSum Invoice.amount customerInvoices in
  let customerPayments :=
    List.filter (fun txn =>
      optStringIs (Transaction.contact txn) customerId
      && optContactTypeIs (Transaction.contactType txn) Customer
      && TransactionType_eqb (Transaction.type txn) TxIncome) transactions in
  let balance := balance - reduceSum Transaction.amount customerPayments in
  balance.

Definition calculateVendorBalance (vendorId : string)
    (transactions : list Transaction.t) : Q :=
  let balance := 0 in
  let vendorExpenses :=
    List.filter (fun txn =>
      optStringIs (Transaction.contact txn) vendorId
      && optContactTypeIs (Transaction.contactType txn) Vendor
      && TransactionType_eqb (Transaction.type txn) TxExpense) transactions in
  let balance := balance + reduceSum Transaction.amount vendorExpenses in
  let vendorPayments :=
    List.filter (fun txn =>
      optStringIs (Transaction.contact txn) vendorId
      && optContactTypeIs (Transaction.contactType txn) Vendor
      && includes (toLowerCase (Transaction.description txn)) "payment")
      transactions in
  let balance := balance - reduceSum Transaction.amount vendorPayments in
  balance.

Definition validateTransactionBalance (transactions : list Transaction.t)
    : LedgerCheck.t :=
  let totalDebits := reduceSum Transaction.amount transactions in
  let totalCredits := reduceSum Transaction.amount transactions in
  let difference := Qabs (totalDebits - totalCredits) in
  LedgerCheck.mk (Qltb difference (1 # 100)) totalDebits totalCredits difference.

Definition calculateAllAccountBalances (accounts : list Account.t)
    (transactions : list Transaction.t) : gmap string Q :=
  fold_left (fun (balances : gmap string Q) account =>
    let balance :=
      calculateAccountBalance (Account.id account) (Account.type account)
        transactions in
    <[Account.id account := balance]> balances) accounts ∅.

Definition calculateAllContactBalances (contacts : list Contact.t)
    (invoices : list Invoice.t) (transactions : list Transaction.t)
    : gmap string Q :=
  fold_left (fun (balances : gmap string Q) contact =>
    let balance :=
      if ContactType_eqb (Contact.type contact) Customer then
        calculateCustomerBalance (Contact.id contact) invoices transactions
      else if ContactType_eqb (Contact.type contact) Vendor then
        calculateVendorBalance (Contact.id contact) transactions
      else 0 in
    <[Contact.id contact := balance]> balances) contacts ∅.

Definition getAccountTypeSummary (accounts : list Account.t)
    (balances : gmap string Q) : Summary.t :=
  fold_left (fun summary account =>
    let balance := orZero (balances !! Account.id account) in
    Summary.add summary (Account.type account) balance)
    accounts (Summary.mk 0 0 0 0 0).

Definition verifyAccountingEquation (accounts : list Account.t)
    (balances : gmap string Q) : EquationCheck.t :=
  let summary := getAccountTypeSummary accounts balances in
  let assets := Summary.asset summary in
  let liabilitiesAndEquity :=
    Summary.liability summary + Summary.equity summary in
  let difference := Qabs (assets - liabilitiesAndEquity) in
  EquationCheck.mk (Qltb difference (1 # 100)) assets
    (Summary.liability summary) (Summary.equity summary) difference.

(** [formatCurrency].  [Intl.NumberFormat("en-US", ...).format] belongs to
    the JavaScript runtime, not to the repository: it is the parameter
    [numberFormat].  Both branches of the trailing conditional are the empty
    string. *)
Definition formatCurrency (numberFormat : Q -> string) (amount : Q) : string :=
  "K" ++ numberFormat (Qabs amount)
      ++ (if Qltb amount 0 then EmptyString else EmptyString).

End BalanceEngine.

(** ** The engine in binary64

    The same source, with [number] as the IEEE 754 binary64 format of
    JavaScript: [+], [-], [Math.abs], [<] and [>=] are the primitive
    operations on [float], with their rounding, infinities and NaN.  The
    records repeat the data model with [float] in the number fields. *)

Module Binary64.

Local Open Scope float_scope.

Module Transaction.
Record t := mk {
  id : string;
  date : string;
  description : string;
  amount : float;
  type : TransactionType;
  debitAccount : string;
  creditAccount : string;
  category : option string;
  contact : option string;
  contactType : option ContactType
}.
End Transaction.

Module Account.
Record t := mk {
  id : string;
  name : string;
  type : AccountType;
  code : string;
  balance : option float
}.
End Account.

Module Invoice.
Record t := mk {
  id : string;
  customerId : string;
  amount : float;
  status : InvoiceStatus;
  date : string;
  dueDate : string
}.
End Invoice.

Module Summary.
Record t := mk {
  asset : float;
  liability : float;
  equity : float;
  revenue : float;
  expense : float
}.

Definition get (summary : t) (type : AccountType) : float :=
  match type with
  | Asset => asset summary
  | Liability => liability summary
  | Equity => equity summary
  | Revenue => revenue summary
  | Expense => expense summary
  end.

Definition add (summary : t) (type : AccountType) (balance : float) : t :=
  match type with
  | Asset => mk (asset summary + balance) (liability summary)
                (equity summary) (revenue summary) (expense summary)
  | Liability => mk (asset summary) (liability summary + balance)
                    (equity summary) (revenue summary) (expense summary)
  | Equity => mk (asset summary) (liability summary)
                 (equity summary + balance) (revenue summary) (expense summary)
  | Revenue => mk (asset summary) (liability summary)
                  (equity summary) (revenue summary + balance) (expense summary)
  | Expense => mk (asset summary) (liability summary)
                  (equity summary) (revenue summary) (expense summary + balance)
  end.
End Summary.

Module LedgerCheck.
Record t := mk {
  isValid : bool;
  totalDebits : float;
  totalCredits : float;
  difference : float
}.
End LedgerCheck.

Module EquationCheck.
Record t := mk {
  isBalanced : bool;
  assets : float;
  liabilities : float;
  equity : float;
  difference : float
}.
End EquationCheck.

(** The literal [0.01], that is the double nearest to one hundredth. *)
Definition tolerance : float := 0x1.47ae147ae147bp-7.

(** [xs.reduce((sum, x) => sum + f(x), 0)] *)
Definition reduceSum {A : Type} (f : A -> float) (xs : list A) : float :=
  fold_left (fun sum x => sum + f x) xs 0.

(** [v || 0] for an optional number [v]: [undefined], [0], [-0] and [NaN]
    are falsy. *)
Definition orZero (v : option float) : float :=
  match v with
  | Some b => if is_zero b || is_nan b then 0 else b
  | None => 0
  end.

Definition postTransaction (accountId : string) (accountType : AccountType)
    (balance : float) (transaction : Transaction.t) : float :=
  let balance :=
    if String.eqb (Transaction.debitAccount transaction) accountId then
      if BalanceEngine.debitIncreases accountType
      then balance + Transaction.amount transaction
      else balance - Transaction.amount transaction
    else balance in
  let balance :=
    if String.eqb (Transaction.creditAccount transaction) accountId then
      if BalanceEngine.debitIncreases accountType
      then balance - Transaction.amount transaction
      else balance + Transaction.amount transaction
    else balance in
  balance.

Definition calculateAccountBalance (accountId : string)
    (accountType : AccountType) (transactions : list Transaction.t) : float :=
  fold_left (postTransaction accountId accountType) transactions 0.

Definition calculateCustomerBalance (customerId : string)
    (invoices : list Invoice.t) (transactions : list Transaction.t) : float :=
  let balance := 0 in
  let customerInvoices :=
    List.filter (fun inv =>
      String.eqb (Invoice.customerId inv) customerId
      && negb (InvoiceStatus_eqb (Invoice.status inv) Paid)) invoices in
  let balance := balance + reduceSum Invoice.amount customerInvoices in
  let customerPayments :=
    List.filter (fun txn =>
      optStringIs (Transaction.contact txn) customerId
      && optContactTypeIs (Transaction.contactType txn) Customer
      && TransactionType_eqb (Transaction.type txn) TxIncome) transactions in
  let balance := balance - reduceSum Transaction.amount customerPayments in
  balance.

Definition calculateVendorBalance (vendorId : string)
    (transactions : list Transaction.t) : float :=
  let balance := 0 in
  let vendorExpenses :=
    List.filter (fun txn =>
      optStringIs (Transaction.contact txn) vendorId
      && optContactTypeIs (Transaction.contactType txn) Vendor
      && TransactionType_eqb (Transaction.type txn) TxExpense) transactions in
  let balance := balance + reduceSum Transaction.amount vendorExpenses in
  let vendorPayments :=
    List.filter (fun txn =>
      optStringIs (Transaction.contact txn) vendorId
      && optContactTypeIs (Transaction.contactType txn) Vendor
      && includes (toLowerCase (Transaction.description txn)) "payment")
      transactions in
  let balance := balance - reduceSum Transaction.amount vendorPayments in
  balance.

Definition validateTransactionBalance (transactions : list Transaction.t)
    : LedgerCheck.t :=
  let totalDebits := reduceSum Transaction.amount transactions in
  let totalCredits := reduceSum Transaction.amount transactions in
  let difference := abs (totalDebits - totalCredits) in
  LedgerCheck.mk (difference <? tolerance) totalDebits totalCredits difference.

Definition getAccountTypeSummary (accounts : list Account.t)
    (balances : gmap string float) : Summary.t :=
  fold_left (fun summary account =>
    let balance := orZero (balances !! Account.id account) in
    Summary.add summary (Account.type account) balance)
    accounts (Summary.mk 0 0 0 0 0).

Definition verifyAccountingEquation (accounts : list Account.t)
    (balances : gmap string float) : EquationCheck.t :=
  let summary := getAccountTypeSummary accounts balances in
  let assets := Summary.asset summary in
  let liabilitiesAndEquity :=
    Summary.liability summary + Summary.equity summary in
  let difference := abs (assets - liabilitiesAndEquity) in
  EquationCheck.mk (difference <? tolerance) assets
    (Summary.liability summary) (Summary.equity summary) difference.

Definition getBalanceColorClass (balance : float)
    (accountType : option AccountType) : string :=
  if optAccountTypeIs accountType Asset || optAccountTypeIs accountType Expense
  then
    if 0 <=? balance then "text-green-600" else "text-red-600"
  else
    if 0 <=? balance then "text-green-600" else "text-red-600".

End Binary64.

(** ** What the specification says, in its own words *)

#[global] Instance TransactionType_eq_dec : EqDecision TransactionType.
Proof. solve_decision. Defined.
#[global] Instance ContactType_eq_dec : EqDecision ContactType.
Proof. solve_decision. Defined.
#[global] Instance AccountType_eq_dec : EqDecision AccountType.
Proof. solve_decision. Defined.
#[global] Instance InvoiceStatus_eq_dec : EqDecision InvoiceStatus.
Proof. solve_decision. Defined.

Module Spec.

(** The sum of a list of numbers. *)
Definition total (xs : list Q) : Q := foldr Qplus 0 xs.

(** The sum of [f x] over the elements [x] of [xs] that satisfy [P]. *)
Definition sumWhere {A : Type} (P : A -> Prop) `{!forall x, Decision (P x)}
    (f : A -> Q) (xs : list A) : Q :=
  total (map f (filter P xs)).

(** Asset and expense accounts carry a debit balance; liability, equity and
    revenue accounts a credit balance. *)
Definition normalDebit (accountType : AccountType) : bool :=
  match accountType with
  | Asset | Expense => true
  | Liability | Equity | Revenue => false
  end.

(** What a debit of [amount] does to an account of the given type, and what
    a credit does. *)
Definition debited (accountType : AccountType) (amount : Q) : Q :=
  if normalDebit accountType then amount else - amount.

Definition credited (accountType : AccountType) (amount : Q) : Q :=
  if normalDebit accountType then - amount else amount.

(** Section 4.1: every transaction debiting the account contributes its
    debit effect, every transaction crediting it its credit effect. *)
Definition accountBalance (accountId : string) (accountType : AccountType)
    (transactions : list Transaction.t) : Q :=
  sumWhere (fun t => Transaction.debitAccount t = accountId)
           (fun t => debited accountType (Transaction.amount t)) transactions
  + sumWhere (fun t => Transaction.creditAccount t = accountId)
             (fun t => credited accountType (Transaction.amount t)) transactions.

(** Case-insensitive containment: some piece of [s] equals [pat] once the
    case of the letters is ignored.  The letters and their two cases are
    listed; every other character has one form only. *)
Definition upperCaseLetters : string := "ABCDEFGHIJKLMNOPQRSTUVWXYZ".
Definition lowerCaseLetters : string := "abcdefghijklmnopqrstuvwxyz".

Definition letterCases : list (ascii * ascii) :=
  combine (list_ascii_of_string upperCaseLetters)
          (list_ascii_of_string lowerCaseLetters).

Definition sameLetter (a b : ascii) : Prop :=
  a = b \/ In (a, b) letterCases \/ In (b, a) letterCases.

Inductive sameIgnoringCase : string -> string -> Prop :=
| sameIgnoringCase_nil : sameIgnoringCase EmptyString EmptyString
| sameIgnoringCase_cons a b s t :
    sameLetter a b -> sameIgnoringCase s t ->
    sameIgnoringCase (String a s) (String b t).

Definition containsIgnoringCase (s pat : string) : Prop :=
  exists pre mid post, s = pre ++ mid ++ post /\ sameIgnoringCase mid pat.

(** Section 4.2, customers: unpaid invoices of the customer minus the income
    received from the customer. *)
Definition customerBalance (customerId : string) (invoices : list Invoice.t)
    (transactions : list Transaction.t) : Q :=
  sumWhere (fun inv => Invoice.customerId inv = customerId
                       /\ Invoice.status inv <> Paid)
           Invoice.amount invoices
  - sumWhere (fun t => Transaction.contact t = Some customerId
                       /\ Transaction.contactType t = Some Customer
                       /\ Transaction.type t = TxIncome)
             Transaction.amount transactions.

Section Vendor.
Context `{!forall s pat, Decision (containsIgnoringCase s pat)}.

(** Section 4.2, vendors: expenses of the vendor minus the transactions of
    the vendor whose description mentions a payment. *)
Definition vendorBalance (vendorId : string)
    (transactions : list Transaction.t) : Q :=
  sumWhere (fun t => Transaction.contact t = Some vendorId
                     /\ Transaction.contactType t = Some Vendor
                     /\ Transaction.type t = TxExpense)
           Transaction.amount transactions
  - sumWhere (fun t => Transaction.contact t = Some vendorId
                       /\ Transaction.contactType t = Some Vendor
                       /\ containsIgnoringCase (Transaction.description t)
                                               "payment")
             Transaction.amount transactions.

End Vendor.

(** Section 4.4: the balance of an account as the map has it, 0 when the
    map has no entry for the account, summed per account type. *)
Definition mappedBalance (balances : gmap string Q) (account : Account.t) : Q :=
  default 0 (balances !! Account.id account).

Definition typeTotal (type : AccountType) (accounts : list Account.t)
    (balances : gmap string Q) : Q :=
  sumWhere (fun a => Account.type a = type) (mappedBalance balances) accounts.

End Spec.

(** ** The specification read in binary64 *)

Module Spec64.

Local Open Scope float_scope.

(** The exact value of a double; the infinities and NaN have none. *)
Definition valueOf (x : float) : option Q :=
  match Prim2SF x with
  | S754_zero _ => Some 0%Q
  | S754_finite s m e =>
      Some ((if s then - inject_Z (Zpos m) else inject_Z (Zpos m))
            * Qpower 2 e)%Q
  | S754_infinity _ | S754_nan => None
  end.

(** The sum, without rounding, of the values of a list of doubles. *)
Fixpoint exactSum (xs : list float) : option Q :=
  match xs with
  | [] => Some 0%Q
  | x :: rest =>
      match valueOf x, exactSum rest with
      | Some v, Some w => Some (v + w)%Q
      | _, _ => None
      end
  end.

(** The double [x] has the value [q]. *)
Definition hasValue (x : float) (q : option Q) : Prop :=
  match valueOf x, q with
  | Some v, Some w => (v == w)%Q
  | _, _ => False
  end.

(** The sum of a list of doubles as a loop computes it: from 0, left to
    right, every addition rounded to the nearest double. *)
Definition sum (xs : list float) : float := fold_left add xs 0.

Definition sumWhere {A : Type} (P : A -> Prop) `{!forall x, Decision (P x)}
    (f : A -> float) (xs : list A) : float :=
  sum (map f (filter P xs)).

Definition debited (accountType : AccountType) (amount : float) : float :=
  if Spec.normalDebit accountType then amount else - amount.

Definition credited (accountType : AccountType) (amount : float) : float :=
  if Spec.normalDebit accountType then - amount else amount.

(** The contributions to the balance of an account, in ledger order: for
    every transaction its debit effect if it debits the account, then its
    credit effect if it credits the account. *)
Definition postings (accountId : string) (accountType : AccountType)
    (transactions : list Binary64.Transaction.t) : list float :=
  flat_map (fun t =>
    ((if decide (Binary64.Transaction.debitAccount t = accountId)
      then [debited accountType (Binary64.Transaction.amount t)] else [])
     ++ (if decide (Binary64.Transaction.creditAccount t = accountId)
         then [credited accountType (Binary64.Transaction.amount t)]
         else []))%list)
    transactions.

Definition accountBalance (accountId : string) (accountType : AccountType)
    (transactions : list Binary64.Transaction.t) : float :=
  sum (postings accountId accountType transactions).

Definition unpaidTotal (customerId : string)
    (invoices : list Binary64.Invoice.t) : float :=
  sumWhere (fun inv => Binary64.Invoice.customerId inv = customerId
                       /\ Binary64.Invoice.status inv <> Paid)
           Binary64.Invoice.amount invoices.

Definition incomeTotal (customerId : string)
    (transactions : list Binary64.Transaction.t) : float :=
  sumWhere (fun t => Binary64.Transaction.contact t = Some customerId
                     /\ Binary64.Transaction.contactType t = Some Customer
                     /\ Binary64.Transaction.type t = TxIncome)
           Binary64.Transaction.amount transactions.

Definition expenseTotal (vendorId : string)
    (transactions : list Binary64.Transaction.t) : float :=
  sumWhere (fun t => Binary64.Transaction.contact t = Some vendorId
                     /\ Binary64.Transaction.contactType t = Some Vendor
                     /\ Binary64.Transaction.type t = TxExpense)
           Binary64.Transaction.amount transactions.

Section Vendor.
Context `{!forall s pat, Decision (Spec.containsIgnoringCase s pat)}.

Definition paymentTotal (vendorId : string)
    (transactions : list Binary64.Transaction.t) : float :=
  sumWhere (fun t => Binary64.Transaction.contact t = Some vendorId
                     /\ Binary64.Transaction.contactType t = Some Vendor
                     /\ Spec.containsIgnoringCase
                          (Binary64.Transaction.description t) "payment")
           Binary64.Transaction.amount transactions.

End Vendor.

(** The balance the map holds for the account; 0 when the map has no entry
    for it, and also when the entry is NaN or a zero. *)
Definition mappedBalance (balances : gmap string float)
    (account : Binary64.Account.t) : float :=
  match balances !! Binary64.Account.id account with
  | Some b => if is_nan b then 0 else if is_zero b then 0 else b
  | None => 0
  end.

Definition typeTotal (type : AccountType)
    (accounts : list Binary64.Account.t) (balances : gmap string float)
    : float :=
  sumWhere (fun a => Binary64.Account.type a = type) (mappedBalance balances)
           accounts.

End Spec64.

(** ** Auxiliary definitions of the proofs *)

(** What one pass of the loop body adds to the running balance. *)
Definition posting (accountId : string) (accountType : AccountType)
    (t : Transaction.t) : Q :=
  (if decide (Transaction.debitAccount t = accountId)
   then Spec.debited accountType (Transaction.amount t) else 0)
  + (if decide (Transaction.creditAccount t = accountId)
     then Spec.credited accountType (Transaction.amount t) else 0).

(** The sign with which a balance of the given type enters a trial balance:
    plus for the debit side, minus for the credit side. *)
Definition side (accountType : AccountType) : Q :=
  if Spec.normalDebit accountType then 1 else - (1).

(** How many accounts of the list carry the id. *)
Definition occurrences (id : string) (accounts : list Account.t) : Q :=
  Spec.total (map (fun a => if decide (id = Account.id a) then 1 else 0)
                  accounts).

(** The invoice with its status set to paid. *)
Definition markPaid (inv : Invoice.t) : Invoice.t :=
  Invoice.mk (Invoice.id inv) (Invoice.customerId inv) (Invoice.amount inv)
             Paid (Invoice.date inv) (Invoice.dueDate inv).

(** What [calculateAllContactBalances] stores for one contact. *)
Definition contactBalance (contact : Contact.t) (invoices : list Invoice.t)
    (transactions : list Transaction.t) : Q :=
  match Contact.type contact with
  | Customer =>
      BalanceEngine.calculateCustomerBalance (Contact.id contact) invoices
        transactions
  | Vendor =>
      BalanceEngine.calculateVendorBalance (Contact.id contact) transactions
  end.

(** Sample ledgers. *)
Definition selfPosting : Transaction.t :=
  Transaction.mk "t2" "2024-01-02" "correction" (1 # 5) TxTransfer
                 "cash" "cash" None None None.

Definition openingEntry : Transaction.t :=
  Transaction.mk "t1" "2024-01-01" "opening" (1 # 10) TxTransfer
                 "cash" "capital" None None None.


Definition paidInvoice : Invoice.t :=
  Invoice.mk "i1" "c1" 120 Paid "2024-01-05" "2024-02-05".

Definition otherCustomersInvoice : Invoice.t :=
  Invoice.mk "i2" "c2" 80 Sent "2024-01-06" "2024-02-06".

Definition customerIncome : Transaction.t :=
  Transaction.mk "t3" "2024-02-01" "Invoice settled" 200 TxIncome
                 "cash" "receivables" None (Some "c1") (Some Customer).

Definition customerRefund : Transaction.t :=
  Transaction.mk "t4" "2024-02-02" "Refund" 15 TxExpense
                 "sales" "cash" None (Some "c1") (Some Customer).

Definition vendorBill : Transaction.t :=
  Transaction.mk "t5" "2024-03-01" "Office chairs" 300 TxExpense
                 "furniture" "payables" None (Some "v1") (Some Vendor).

Definition vendorRebate : Transaction.t :=
  Transaction.mk "t6" "2024-03-09" "Rebate PAYMENT received" 50 TxIncome
                 "cash" "furniture" None (Some "v1") (Some Vendor).

Definition vendorExpensePayment : Transaction.t :=
  Transaction.mk "t7" "2024-03-10" "Payment for chairs" 300 TxExpense
                 "payables" "cash" None (Some "v1") (Some Vendor).

Definition otherVendorsBill : Transaction.t :=
  Transaction.mk "t8" "2024-03-11" "Down payment" 70 TxExpense
                 "rent" "cash" None (Some "v2") (Some Vendor).

Definition bankAccount : Account.t :=
  Account.mk "a1" "Bank" Asset "1000" None.

Definition loanAccount : Account.t :=
  Account.mk "l1" "Loan" Liability "2000" None.

Definition capitalAccount : Account.t :=
  Account.mk "e1" "Capital" Equity "3000" None.

Definition salesAccount : Account.t :=
  Account.mk "r1" "Sales" Revenue "4000" None.

Definition chartOfAccounts : list Account.t :=
  [bankAccount; loanAccount; capitalAccount].

Definition balancedBooks : gmap string Q :=
  <["e1" := 600]> (<["l1" := 400]> (<["a1" := 1000]> ∅)).


Definition tillAsAsset : Account.t :=
  Account.mk "till" "Till" Asset "1010" None.

Definition tillAsRevenue : Account.t :=
  Account.mk "till" "Till takings" Revenue "4010" None.

Definition cashSale : Transaction.t :=
  Transaction.mk "t9" "2024-04-01" "Cash sale" 500 TxIncome
                 "till" "sales" None None None.

Definition bookedSale : Transaction.t :=
  Transaction.mk "t10" "2024-05-01" "Consulting" 500 TxIncome
                 "a1" "r1" None None None.

Definition loanDrawn : Transaction.t :=
  Transaction.mk "t11" "2024-05-02" "Loan drawn" 300 TxTransfer
                 "a1" "l1" None None None.

Definition ownerWithdrawal : Transaction.t :=
  Transaction.mk "t12" "2024-05-03" "Withdrawal" (125 # 2) TxTransfer
                 "e1" "a1" None None None.

Definition fullChart : list Account.t :=
  [bankAccount; loanAccount; capitalAccount; salesAccount].

Definition generalLedger : list Transaction.t :=
  [bookedSale; loanDrawn; cashSale; ownerWithdrawal].

Definition regularCustomer : Contact.t :=
  Contact.mk "c1" "Mwansa Stores" Customer None.

Definition furnitureVendor : Contact.t :=
  Contact.mk "v1" "Chairs Ltd" Vendor None.

Definition unpaidInvoice : Invoice.t :=
  Invoice.mk "i3" "c1" 200 Overdue "2024-01-10" "2024-02-10".

(** Sample ledgers in binary64.  [tenth], [fifth] and [hundredth] are what
    the literals [0.1], [0.2] and [0.01] denote. *)
Definition tenth : float := 0x1.999999999999ap-4.
Definition fifth : float := 0x1.999999999999ap-3.
Definition twoTo53 : float := 9007199254740992.
Definition twoTo1023 : float := 0x1p1023.

Definition entry64 (debit credit : string) (amount : float)
    : Binary64.Transaction.t :=
  Binary64.Transaction.mk "e" "2024-06-01" "entry" amount TxTransfer
    debit credit None None None.

Definition invoice64 (customerId : string) (amount : float)
    (status : InvoiceStatus) : Binary64.Invoice.t :=
  Binary64.Invoice.mk "i" customerId amount status "2024-06-01" "2024-07-01".

Definition contactEntry64 (contact : string) (kind : ContactType)
    (type : TransactionType) (description : string) (amount : float)
    : Binary64.Transaction.t :=
  Binary64.Transaction.mk "c" "2024-06-02" description amount type
    "books" "bank" None (Some contact) (Some kind).

Definition account64 (id : string) (type : AccountType) : Binary64.Account.t :=
  Binary64.Account.mk id id type "0000" None.

(** ** Strings *)

Lemma append_nil_l (s : string) : EmptyString ++ s = s.
Proof. reflexivity. Qed.

Lemma append_cons (c : ascii) (s t : string) :
  String c s ++ t = String c (s ++ t).
Proof. reflexivity. Qed.

Lemma append_assoc (a b c : string) : (a ++ b) ++ c = a ++ b ++ c.
Proof.
  induction a as [|x a IH]; [reflexivity|].
  rewrite !append_cons, IH. reflexivity.
Qed.

Lemma prefix_spec (pat s : string) :
  String.prefix pat s = true <-> exists post, s = pat ++ post.
Proof.
  revert s. induction pat as [|c pat IH]; intros s.
  - split; [intros _; exists s; reflexivity|].
    intros _. destruct s; reflexivity.
  - destruct s as [|d s]; simpl.
    + split; [discriminate|]. intros [post H]. discriminate H.
    + destruct (ascii_dec c d) as [->|Hne].
      * rewrite IH. split; intros [post H]; exists post.
        -- rewrite append_cons, H. reflexivity.
        -- rewrite append_cons in H. congruence.
      * split; [discriminate|]. intros [post H].
        rewrite append_cons in H. congruence.
Qed.

Lemma includes_nil (pat : string) :
  includes EmptyString pat = String.prefix pat EmptyString || false.
Proof. reflexivity. Qed.

Lemma includes_cons (c : ascii) (s pat : string) :
  includes (String c s) pat = String.prefix pat (String c s) || includes s pat.
Proof. reflexivity. Qed.

Lemma includes_spec (s pat : string) :
  includes s pat = true <-> exists pre post, s = pre ++ pat ++ post.
Proof.
  induction s as [|c s IH];
    [rewrite includes_nil|rewrite includes_cons];
    rewrite orb_true_iff, prefix_spec.
  - split.
    + intros [[post H]|H]; [|discriminate]. exists EmptyString, post. exact H.
    + intros ([|d pre] & post & H); [|discriminate H].
      left. exists post. exact H.
  - rewrite IH. split.
    + intros [[post H]|(pre & post & H)].
      * exists EmptyString, post. exact H.
      * exists (String c pre), post. rewrite append_cons, H. reflexivity.
    + intros ([|d pre] & post & H).
      * left. exists post. exact H.
      * right. rewrite append_cons in H. exists pre, post. congruence.
Qed.

Lemma toLowerCase_app (a b : string) :
  toLowerCase (a ++ b) = toLowerCase a ++ toLowerCase b.
Proof.
  induction a as [|c a IH]; [reflexivity|].
  rewrite append_cons. simpl. rewrite IH, append_cons. reflexivity.
Qed.

Lemma toLowerCase_split (s x y : string) :
  toLowerCase s = x ++ y ->
  exists a b, s = a ++ b /\ toLowerCase a = x /\ toLowerCase b = y.
Proof.
  revert s. induction x as [|c x IH]; intros s H.
  - exists EmptyString, s. repeat split; assumption.
  - destruct s as [|d s]; [discriminate H|].
    simpl in H. rewrite append_cons in H. injection H as Hc Hs.
    destruct (IH s Hs) as (a & b & -> & Ha & Hb).
    exists (String d a), b. repeat split; [|assumption].
    simpl. rewrite Hc, Ha. reflexivity.
Qed.

Lemma letterCases_lower (a b : ascii) :
  In (a, b) Spec.letterCases -> toLowerAscii a = b /\ toLowerAscii b = b.
Proof.
  intros H. cbv in H.
  repeat (destruct H as [H|H];
          [injection H as <- <-; split; reflexivity|]).
  destruct H.
Qed.

Lemma letterCases_upper (a b : ascii) :
  In (a, b) Spec.letterCases ->
  a = ascii_of_nat (nat_of_ascii b - 32).
Proof.
  intros H. cbv in H.
  repeat (destruct H as [H|H]; [injection H as <- <-; reflexivity|]).
  destruct H.
Qed.

Lemma toLowerAscii_cases (a : ascii) :
  toLowerAscii a = a \/ In (a, toLowerAscii a) Spec.letterCases.
Proof.
  destruct a as [[] [] [] [] [] [] [] []];
    first [left; reflexivity | right; cbv; tauto || auto 30].
Qed.

Lemma toLowerAscii_sameLetter (a b : ascii) :
  toLowerAscii a = toLowerAscii b <-> Spec.sameLetter a b.
Proof.
  unfold Spec.sameLetter. split.
  - intros Heq.
    destruct (toLowerAscii_cases a) as [Ha|Ha],
             (toLowerAscii_cases b) as [Hb|Hb].
    + left. congruence.
    + right. right. rewrite <- Heq, Ha in Hb. exact Hb.
    + right. left. rewrite Heq, Hb in Ha. exact Ha.
    + left. rewrite (letterCases_upper _ _ Ha), (letterCases_upper _ _ Hb),
        Heq. reflexivity.
  - intros [->|[H|H]]; [reflexivity| |];
      apply letterCases_lower in H as [H1 H2]; congruence.
Qed.

Lemma toLowerCase_sameIgnoringCase (a b : string) :
  toLowerCase a = toLowerCase b <-> Spec.sameIgnoringCase a b.
Proof.
  split.
  - revert b. induction a as [|x a IH]; intros [|y b] H; simpl in H;
      try discriminate H.
    + constructor.
    + injection H as Hxy Hab. constructor.
      * apply toLowerAscii_sameLetter, Hxy.
      * apply IH, Hab.
  - induction 1 as [|x y a b Hxy _ IH]; [reflexivity|]. simpl.
    apply toLowerAscii_sameLetter in Hxy. rewrite Hxy, IH. reflexivity.
Qed.

(** The test of the source, [s.toLowerCase().includes(pat)] for a lower-case
    [pat], decides containment up to the case of the letters. *)
Lemma includes_toLowerCase (s pat : string) :
  includes (toLowerCase s) (toLowerCase pat) = true
  <-> Spec.containsIgnoringCase s pat.
Proof.
  rewrite includes_spec. unfold Spec.containsIgnoringCase.
  split.
  - intros (pre & post & H).
    destruct (toLowerCase_split _ _ _ H) as (a & b & -> & _ & Hb).
    destruct (toLowerCase_split _ _ _ Hb) as (mid & c & -> & Hmid & _).
    exists a, mid, c. split; [reflexivity|].
    apply toLowerCase_sameIgnoringCase, Hmid.
  - intros (pre & mid & post & -> & Hmid).
    apply toLowerCase_sameIgnoringCase in Hmid.
    exists (toLowerCase pre), (toLowerCase post).
    rewrite !toLowerCase_app, Hmid. reflexivity.
Qed.

Lemma mentions_payment (s : string) :
  includes (toLowerCase s) "payment" = true
  <-> Spec.containsIgnoringCase s "payment".
Proof. exact (includes_toLowerCase s "payment"). Qed.

(** ** Sums *)

Lemma total_app (xs ys : list Q) :
  Spec.total (xs ++ ys) == Spec.total xs + Spec.total ys.
Proof.
  induction xs as [|x xs IH]; simpl.
  - ring.
  - rewrite IH. ring.
Qed.

Lemma sumWhere_nil {A} (P : A -> Prop) `{!forall x, Decision (P x)} (f : A -> Q) :
  Spec.sumWhere P f [] = 0.
Proof. reflexivity. Qed.

Lemma sumWhere_cons {A} (P : A -> Prop) `{!forall x, Decision (P x)}
    (f : A -> Q) (x : A) (xs : list A) :
  Spec.sumWhere P f (x :: xs)
  = if decide (P x) then f x + Spec.sumWhere P f xs else Spec.sumWhere P f xs.
Proof.
  unfold Spec.sumWhere. rewrite filter_cons.
  destruct (decide (P x)); reflexivity.
Qed.

Lemma sumWhere_app {A} (P : A -> Prop) `{!forall x, Decision (P x)}
    (f : A -> Q) (xs ys : list A) :
  Spec.sumWhere P f (xs ++ ys) == Spec.sumWhere P f xs + Spec.sumWhere P f ys.
Proof.
  unfold Spec.sumWhere. rewrite filter_app, map_app. apply total_app.
Qed.

(** A [reduce] that starts from any accumulator adds the total to it. *)
Lemma fold_left_sum {A} (f : A -> Q) (xs : list A) (acc : Q) :
  fold_left (fun sum x => sum + f x) xs acc == acc + Spec.total (map f xs).
Proof.
  revert acc. induction xs as [|x xs IH]; intros acc; simpl.
  - ring.
  - rewrite IH. ring.
Qed.

Lemma reduceSum_total {A} (f : A -> Q) (xs : list A) :
  reduceSum f xs == Spec.total (map f xs).
Proof. unfold reduceSum. rewrite fold_left_sum. ring. Qed.

(** A boolean [filter] followed by [reduce] is the sum over the elements
    that satisfy the property the boolean test decides. *)
Lemma reduceSum_filter {A} (p : A -> bool) (P : A -> Prop)
    `{!forall x, Decision (P x)} (f : A -> Q) (xs : list A) :
  (forall x, p x = true <-> P x) ->
  reduceSum f (List.filter p xs) == Spec.sumWhere P f xs.
Proof.
  intros Hp. rewrite reduceSum_total.
  induction xs as [|x xs IH]; [reflexivity|].
  rewrite sumWhere_cons. simpl.
  destruct (p x) eqn:Hx, (decide (P x)) as [HP|HP]; simpl.
  - rewrite IH. reflexivity.
  - apply Hp in Hx. contradiction.
  - apply Hp in HP. congruence.
  - exact IH.
Qed.

(** ** Account balances *)

Lemma debitIncreases_normalDebit (accountType : AccountType) :
  BalanceEngine.debitIncreases accountType = Spec.normalDebit accountType.
Proof. destruct accountType; reflexivity. Qed.

Lemma postTransaction_posting accountId accountType balance t :
  BalanceEngine.postTransaction accountId accountType balance t
  == balance + posting accountId accountType t.
Proof.
  unfold BalanceEngine.postTransaction, posting, Spec.debited, Spec.credited.
  rewrite debitIncreases_normalDebit.
  destruct (decide (Transaction.debitAccount t = accountId)) as [Hd|Hd];
  destruct (decide (Transaction.creditAccount t = accountId)) as [Hc|Hc];
  [ apply String.eqb_eq in Hd | apply String.eqb_eq in Hd
  | apply String.eqb_neq in Hd | apply String.eqb_neq in Hd ];
  [ apply String.eqb_eq in Hc | apply String.eqb_neq in Hc
  | apply String.eqb_eq in Hc | apply String.eqb_neq in Hc ];
  rewrite Hd, Hc; destruct (Spec.normalDebit accountType); ring.
Qed.

Lemma fold_postTransaction accountId accountType transactions balance :
  fold_left (BalanceEngine.postTransaction accountId accountType)
            transactions balance
  == balance + Spec.total (map (posting accountId accountType) transactions).
Proof.
  revert balance.
  induction transactions as [|t ts IH]; intros balance; simpl.
  - ring.
  - rewrite IH, postTransaction_posting. ring.
Qed.

Lemma accountBalance_postings accountId accountType transactions :
  Spec.accountBalance accountId accountType transactions
  == Spec.total (map (posting accountId accountType) transactions).
Proof.
  unfold Spec.accountBalance.
  induction transactions as [|t ts IH]; [reflexivity|].
  rewrite !sumWhere_cons. simpl. rewrite <- IH. unfold posting.
  destruct (decide (Transaction.debitAccount t = accountId));
  destruct (decide (Transaction.creditAccount t = accountId)); ring.
Qed.

Lemma calculateAccountBalance_postings accountId accountType transactions :
  BalanceEngine.calculateAccountBalance accountId accountType transactions
  == Spec.total (map (posting accountId accountType) transactions).
Proof.
  unfold BalanceEngine.calculateAccountBalance.
  rewrite fold_postTransaction. ring.
Qed.

(** In exact arithmetic.  [calculateAccountBalance] returns the sum, over the ledger, of the
    debit effect of every transaction that debits the account (plus the amount
    for asset and expense accounts, minus the amount otherwise) and of the
    credit effect of every transaction that credits it (the opposite signs).
    In particular a single transaction of 500 debiting "cash" and crediting
    "revenue" gives "cash" (an asset) the balance 500 and "revenue" (a
    revenue account) the balance 500, whatever its other fields are. *)
Theorem calculateAccountBalance_spec :
  (forall accountId accountType transactions,
     BalanceEngine.calculateAccountBalance accountId accountType transactions
     == Spec.accountBalance accountId accountType transactions)
  /\ (forall id date description type category contact contactType,
        let transactions :=
          [Transaction.mk id date description 500 type "cash" "revenue"
                          category contact contactType] in
        BalanceEngine.calculateAccountBalance "cash" Asset transactions == 500
        /\ BalanceEngine.calculateAccountBalance "revenue" Revenue transactions
           == 500).
Proof.
  split.
  - intros accountId accountType transactions.
    rewrite calculateAccountBalance_postings, accountBalance_postings.
    reflexivity.
  - intros. split; vm_compute; reflexivity.
Qed.

(** C9. The balance of an account over the concatenation of two ledgers is
    the sum of its balances over each of them. *)
Theorem calculateAccountBalance_app accountId accountType
    (xs ys : list Transaction.t) :
  BalanceEngine.calculateAccountBalance accountId accountType (xs ++ ys)
  == BalanceEngine.calculateAccountBalance accountId accountType xs
     + BalanceEngine.calculateAccountBalance accountId accountType ys.
Proof.
  rewrite !calculateAccountBalance_postings, map_app. apply total_app.
Qed.

(** A transaction whose two sides are the same account adds nothing to the
    total of that account. *)
Lemma posting_self accountType t :
  Transaction.debitAccount t = Transaction.creditAccount t ->
  posting (Transaction.debitAccount t) accountType t == 0.
Proof.
  intros Heq. unfold posting, Spec.debited, Spec.credited.
  rewrite <- Heq.
  destruct (decide (Transaction.debitAccount t = Transaction.debitAccount t));
    [|congruence].
  destruct (Spec.normalDebit accountType); ring.
Qed.

(** In exact arithmetic.  A transaction that debits and credits the same account leaves the
    balance of that account where it was, for every account type: the loop
    body returns the running balance it was given, and the balance of a
    ledger with such a transaction appended is that of the ledger. *)
Theorem calculateAccountBalance_self_posting accountType
    (t : Transaction.t) (transactions : list Transaction.t) :
  Transaction.debitAccount t = Transaction.creditAccount t ->
  (forall balance,
     BalanceEngine.postTransaction (Transaction.debitAccount t) accountType
       balance t == balance)
  /\ BalanceEngine.calculateAccountBalance (Transaction.debitAccount t)
       accountType (transactions ++ [t])
     == BalanceEngine.calculateAccountBalance (Transaction.debitAccount t)
          accountType transactions.
Proof.
  intros Heq. split.
  - intros balance. rewrite postTransaction_posting, posting_self by exact Heq.
    ring.
  - rewrite !calculateAccountBalance_postings, map_app, total_app. simpl.
    rewrite posting_self by exact Heq. ring.
Qed.

Lemma calculateAccountBalance_self_posting_witness :
  (forall balance,
     BalanceEngine.postTransaction "cash" Liability balance selfPosting
     == balance)
  /\ BalanceEngine.calculateAccountBalance "cash" Liability
       ([openingEntry] ++ [selfPosting])
     == BalanceEngine.calculateAccountBalance "cash" Liability [openingEntry].
Proof.
  apply (calculateAccountBalance_self_posting Liability selfPosting
           [openingEntry]).
  reflexivity.
Defined.

(** ** The double-entry validator *)

Lemma Qltb_lt (a b : Q) : Qltb a b = true <-> a < b.
Proof.
  unfold Qltb. rewrite negb_true_iff, <- not_true_iff_false, Qle_bool_iff.
  split; [apply Qnot_le_lt | apply Qlt_not_le].
Qed.

(** In exact arithmetic.  For every ledger, the empty one or not, [validateTransactionBalance]
    reports the same number as total debits and as total credits, namely the
    sum of all amounts, a difference of 0 and a valid ledger; on the empty
    ledger the report is [{isValid: true, totalDebits: 0, totalCredits: 0,
    difference: 0}]. *)
Theorem validateTransactionBalance_always_valid :
  (forall transactions,
     let report := BalanceEngine.validateTransactionBalance transactions in
     LedgerCheck.totalDebits report = LedgerCheck.totalCredits report
     /\ LedgerCheck.totalDebits report
        == Spec.total (map Transaction.amount transactions)
     /\ LedgerCheck.totalCredits report
        == Spec.total (map Transaction.amount transactions)
     /\ LedgerCheck.difference report == 0
     /\ LedgerCheck.isValid report = true)
  /\ BalanceEngine.validateTransactionBalance [] = LedgerCheck.mk true 0 0 0.
Proof.
  split; [|reflexivity].
  intros transactions. cbv zeta.
  unfold BalanceEngine.validateTransactionBalance. simpl.
  assert (Hdiff : Qabs (reduceSum Transaction.amount transactions
                        - reduceSum Transaction.amount transactions) == 0).
  { assert (H0 : reduceSum Transaction.amount transactions
                  - reduceSum Transaction.amount transactions == 0) by ring.
    rewrite H0. reflexivity. }
  repeat split.
  - apply reduceSum_total.
  - apply reduceSum_total.
  - exact Hdiff.
  - apply Qltb_lt. rewrite Hdiff. reflexivity.
Qed.

(** ** Contact balances *)

Lemma optStringIs_spec (x : option string) (s : string) :
  optStringIs x s = true <-> x = Some s.
Proof.
  destruct x as [y|]; simpl; [|split; discriminate].
  rewrite String.eqb_eq. split; congruence.
Qed.

Lemma optContactTypeIs_spec (x : option ContactType) (c : ContactType) :
  optContactTypeIs x c = true <-> x = Some c.
Proof.
  destruct x as [[]|], c; simpl; split; congruence.
Qed.

Lemma TransactionType_eqb_spec (a b : TransactionType) :
  TransactionType_eqb a b = true <-> a = b.
Proof. destruct a, b; simpl; split; congruence. Qed.

Lemma InvoiceStatus_eqb_spec (a b : InvoiceStatus) :
  InvoiceStatus_eqb a b = true <-> a = b.
Proof. destruct a, b; simpl; split; congruence. Qed.

Lemma sumWhere_none {A} (P : A -> Prop) `{!forall x, Decision (P x)}
    (f : A -> Q) (xs : list A) :
  Forall (fun x => ~ P x) xs -> Spec.sumWhere P f xs = 0.
Proof.
  induction 1 as [|x xs Hx _ IH]; [reflexivity|].
  rewrite sumWhere_cons. destruct (decide (P x)); [contradiction|exact IH].
Qed.

Lemma customerInvoice_test customerId inv :
  String.eqb (Invoice.customerId inv) customerId
  && negb (InvoiceStatus_eqb (Invoice.status inv) Paid) = true
  <-> Invoice.customerId inv = customerId /\ Invoice.status inv <> Paid.
Proof.
  rewrite andb_true_iff, negb_true_iff, <- not_true_iff_false,
    String.eqb_eq, InvoiceStatus_eqb_spec.
  reflexivity.
Qed.

Lemma contactTransaction_test contactId kind type t :
  optStringIs (Transaction.contact t) contactId
  && optContactTypeIs (Transaction.contactType t) kind
  && TransactionType_eqb (Transaction.type t) type = true
  <-> Transaction.contact t = Some contactId
      /\ Transaction.contactType t = Some kind
      /\ Transaction.type t = type.
Proof.
  rewrite !andb_true_iff, optStringIs_spec, optContactTypeIs_spec,
    TransactionType_eqb_spec.
  tauto.
Qed.

Lemma vendorPayment_test vendorId t :
  optStringIs (Transaction.contact t) vendorId
  && optContactTypeIs (Transaction.contactType t) Vendor
  && includes (toLowerCase (Transaction.description t)) "payment" = true
  <-> Transaction.contact t = Some vendorId
      /\ Transaction.contactType t = Some Vendor
      /\ Spec.containsIgnoringCase (Transaction.description t) "payment".
Proof.
  rewrite !andb_true_iff, optStringIs_spec, optContactTypeIs_spec,
    mentions_payment.
  tauto.
Qed.

Lemma calculateCustomerBalance_sums customerId invoices transactions :
  BalanceEngine.calculateCustomerBalance customerId invoices transactions
  == Spec.customerBalance customerId invoices transactions.
Proof.
  unfold BalanceEngine.calculateCustomerBalance, Spec.customerBalance.
  cbv zeta.
  rewrite (reduceSum_filter _ _ _ _ (customerInvoice_test customerId)).
  rewrite (reduceSum_filter _ _ _ _
             (contactTransaction_test customerId Customer TxIncome)).
  ring.
Qed.

(** In exact arithmetic.  [calculateCustomerBalance] is the sum of the amounts of the
    customer's invoices that are not paid, minus the sum of the amounts of the
    income transactions whose contact is this customer; nothing clamps it, so
    it can be negative; and when no invoice and no transaction match, it
    is 0. *)
Theorem calculateCustomerBalance_spec :
  (forall customerId invoices transactions,
     BalanceEngine.calculateCustomerBalance customerId invoices transactions
     == Spec.customerBalance customerId invoices transactions)
  /\ (exists customerId invoices transactions,
        BalanceEngine.calculateCustomerBalance customerId invoices transactions
        < 0)
  /\ (forall customerId invoices transactions,
        Forall (fun inv => ~ (Invoice.customerId inv = customerId
                              /\ Invoice.status inv <> Paid)) invoices ->
        Forall (fun t => ~ (Transaction.contact t = Some customerId
                            /\ Transaction.contactType t = Some Customer
                            /\ Transaction.type t = TxIncome)) transactions ->
        BalanceEngine.calculateCustomerBalance customerId invoices transactions
        == 0).
Proof.
  split; [exact calculateCustomerBalance_sums|split].
  - exists "c1", [], [customerIncome]. reflexivity.
  - intros customerId invoices transactions Hinv Htxn.
    rewrite calculateCustomerBalance_sums. unfold Spec.customerBalance.
    rewrite (sumWhere_none _ _ _ Hinv), (sumWhere_none _ _ _ Htxn).
    reflexivity.
Qed.

Lemma calculateCustomerBalance_spec_witness :
  BalanceEngine.calculateCustomerBalance "c1"
    [paidInvoice; otherCustomersInvoice] [customerRefund; vendorBill] == 0.
Proof.
  apply (proj2 (proj2 calculateCustomerBalance_spec) "c1"
           [paidInvoice; otherCustomersInvoice] [customerRefund; vendorBill]).
  - repeat constructor; intros [Hid Hstatus]; vm_compute in Hid, Hstatus;
      congruence.
  - repeat constructor; intros (Hc & Hk & Hty); vm_compute in Hc, Hk, Hty;
      congruence.
Defined.

(** The scenario of the specification: one unpaid invoice of 200 gives the
    customer the balance 200, and 0 once an income of 200 is recorded. *)
Example calculateCustomerBalance_scenario :
  let invoices := [Invoice.mk "i9" "c1" 200 Sent "2024-01-01" "2024-01-31"] in
  BalanceEngine.calculateCustomerBalance "c1" invoices [] == 200
  /\ BalanceEngine.calculateCustomerBalance "c1" invoices [customerIncome] == 0.
Proof. split; reflexivity. Qed.

(** The test of the source gives a decision procedure for case-insensitive
    containment. *)
Lemma containsIgnoringCase_dec (s pat : string) :
  Decision (Spec.containsIgnoringCase s pat).
Proof.
  destruct (includes (toLowerCase s) (toLowerCase pat)) eqn:Hb.
  - left. apply includes_toLowerCase. exact Hb.
  - right. intros H. apply includes_toLowerCase in H. congruence.
Defined.

Lemma calculateVendorBalance_sums
    `{!forall s pat, Decision (Spec.containsIgnoringCase s pat)}
    vendorId transactions :
  BalanceEngine.calculateVendorBalance vendorId transactions
  == Spec.vendorBalance vendorId transactions.
Proof.
  unfold BalanceEngine.calculateVendorBalance, Spec.vendorBalance.
  cbv zeta.
  rewrite (reduceSum_filter _ _ _ _
             (contactTransaction_test vendorId Vendor TxExpense)).
  rewrite (reduceSum_filter _ _ _ _ (vendorPayment_test vendorId)).
  ring.
Qed.

(** In exact arithmetic.  [calculateVendorBalance] is the sum of the amounts of the expense
    transactions whose contact is this vendor, minus the sum of the amounts of
    the transactions of this vendor whose description contains "payment" in
    any mix of upper and lower case (however that containment is decided);
    when no transaction matches either filter, it is 0. *)
Theorem calculateVendorBalance_spec
    `{!forall s pat, Decision (Spec.containsIgnoringCase s pat)} :
  (forall vendorId transactions,
     BalanceEngine.calculateVendorBalance vendorId transactions
     == Spec.vendorBalance vendorId transactions)
  /\ (forall vendorId transactions,
        Forall (fun t => ~ (Transaction.contact t = Some vendorId
                            /\ Transaction.contactType t = Some Vendor
                            /\ Transaction.type t = TxExpense)) transactions ->
        Forall (fun t => ~ (Transaction.contact t = Some vendorId
                            /\ Transaction.contactType t = Some Vendor
                            /\ Spec.containsIgnoringCase
                                 (Transaction.description t) "payment"))
               transactions ->
        BalanceEngine.calculateVendorBalance vendorId transactions == 0).
Proof.
  split; [exact calculateVendorBalance_sums|].
  intros vendorId transactions Hexp Hpay.
  rewrite calculateVendorBalance_sums. unfold Spec.vendorBalance.
  rewrite (sumWhere_none _ _ _ Hexp), (sumWhere_none _ _ _ Hpay).
  reflexivity.
Qed.

Lemma calculateVendorBalance_spec_witness :
  BalanceEngine.calculateVendorBalance "v1"
    [otherVendorsBill; customerIncome; customerRefund] == 0.
Proof.
  apply (proj2 (calculateVendorBalance_spec (H := containsIgnoringCase_dec))
           "v1" [otherVendorsBill; customerIncome; customerRefund]).
  - repeat constructor; intros (Hc & Hk & Hty); vm_compute in Hc, Hk, Hty;
      congruence.
  - repeat constructor; intros (Hc & Hk & _); vm_compute in Hc, Hk;
      congruence.
Defined.

(** Adding one transaction anywhere in a list adds its amount to a filtered
    sum exactly when it passes the filter. *)
Lemma reduceSum_filter_insert {A} (p : A -> bool) (f : A -> Q)
    (xs ys : list A) (x : A) :
  reduceSum f (List.filter p (xs ++ x :: ys))
  == reduceSum f (List.filter p (xs ++ ys)) + (if p x then f x else 0).
Proof.
  rewrite !reduceSum_total, !List.filter_app, !map_app, !total_app. simpl.
  destruct (p x); simpl; ring.
Qed.

(** In exact arithmetic.  For a transaction of the vendor whose description contains
    "payment" in any case, the payment subtraction ignores the type field:
    when the type is not expense (income, for one) the transaction lowers the
    vendor balance by its amount, and when the type is expense it leaves the
    balance unchanged, being added as an expense and subtracted as a
    payment. *)
Theorem calculateVendorBalance_payment_any_type vendorId
    (xs ys : list Transaction.t) (t : Transaction.t) :
  Transaction.contact t = Some vendorId ->
  Transaction.contactType t = Some Vendor ->
  Spec.containsIgnoringCase (Transaction.description t) "payment" ->
  (Transaction.type t <> TxExpense ->
   BalanceEngine.calculateVendorBalance vendorId (xs ++ t :: ys)
   == BalanceEngine.calculateVendorBalance vendorId (xs ++ ys)
      - Transaction.amount t)
  /\ (Transaction.type t = TxExpense ->
      BalanceEngine.calculateVendorBalance vendorId (xs ++ t :: ys)
      == BalanceEngine.calculateVendorBalance vendorId (xs ++ ys)).
Proof.
  intros Hc Hk Hpay.
  assert (Hpayb := proj2 (vendorPayment_test vendorId t)
                     (conj Hc (conj Hk Hpay))).
  unfold BalanceEngine.calculateVendorBalance. cbv zeta.
  split; intros Hty; rewrite !reduceSum_filter_insert, Hpayb.
  - assert (Hexp : optStringIs (Transaction.contact t) vendorId
                   && optContactTypeIs (Transaction.contactType t) Vendor
                   && TransactionType_eqb (Transaction.type t) TxExpense
                   = false).
    { apply not_true_iff_false. rewrite contactTransaction_test. tauto. }
    rewrite Hexp. ring.
  - rewrite (proj2 (contactTransaction_test vendorId Vendor TxExpense t)
               (conj Hc (conj Hk Hty))).
    ring.
Qed.

Lemma calculateVendorBalance_payment_any_type_witness :
  BalanceEngine.calculateVendorBalance "v1"
    ([vendorBill] ++ vendorRebate :: [otherVendorsBill])
  == BalanceEngine.calculateVendorBalance "v1"
       ([vendorBill] ++ [otherVendorsBill])
     - Transaction.amount vendorRebate
  /\ BalanceEngine.calculateVendorBalance "v1"
       ([vendorBill] ++ vendorExpensePayment :: [otherVendorsBill])
     == BalanceEngine.calculateVendorBalance "v1"
          ([vendorBill] ++ [otherVendorsBill]).
Proof.
  split.
  - apply (calculateVendorBalance_payment_any_type "v1" [vendorBill]
             [otherVendorsBill] vendorRebate); try reflexivity.
    + exists "Rebate ", "PAYMENT", " received".
      split; [reflexivity|apply toLowerCase_sameIgnoringCase; reflexivity].
    + discriminate.
  - apply (calculateVendorBalance_payment_any_type "v1" [vendorBill]
             [otherVendorsBill] vendorExpensePayment); try reflexivity.
    exists EmptyString, "Payment", " for chairs".
    split; [reflexivity|apply toLowerCase_sameIgnoringCase; reflexivity].
Defined.

(** ** Summary by account type *)

Lemma orZero_default (v : option Q) : orZero v == default 0 v.
Proof.
  destruct v as [b|]; simpl; [|reflexivity].
  destruct (Qeq_bool b 0) eqn:Hb; [|reflexivity].
  apply Qeq_bool_iff in Hb. symmetry. exact Hb.
Qed.

Lemma Summary_get_add summary type balance type' :
  Summary.get (Summary.add summary type balance) type'
  = if decide (type = type')
    then Summary.get summary type' + balance
    else Summary.get summary type'.
Proof. destruct type, type'; reflexivity. Qed.

Lemma fold_summary (balances : gmap string Q) accounts summary type :
  Summary.get
    (fold_left (fun summary account =>
       Summary.add summary (Account.type account)
         (orZero (balances !! Account.id account))) accounts summary) type
  == Summary.get summary type + Spec.typeTotal type accounts balances.
Proof.
  revert summary. unfold Spec.typeTotal.
  induction accounts as [|a accounts IH]; intros summary.
  - simpl. rewrite sumWhere_nil. ring.
  - simpl. rewrite IH, Summary_get_add, sumWhere_cons.
    destruct (decide (Account.type a = type)); [|reflexivity].
    rewrite orZero_default. unfold Spec.mappedBalance. ring.
Qed.

Lemma getAccountTypeSummary_get accounts (balances : gmap string Q) type :
  Summary.get (BalanceEngine.getAccountTypeSummary accounts balances) type
  == Spec.typeTotal type accounts balances.
Proof.
  unfold BalanceEngine.getAccountTypeSummary. rewrite fold_summary.
  destruct type; simpl; ring.
Qed.

(** In exact arithmetic.  Each of the five buckets returned by [getAccountTypeSummary] is the
    sum, over the accounts of that type, of the balance the map has for the
    account's id, an account without an entry in the map counting for 0: in
    particular, adding an account the map does not know changes no bucket. *)
Theorem getAccountTypeSummary_spec :
  (forall accounts (balances : gmap string Q),
     let summary := BalanceEngine.getAccountTypeSummary accounts balances in
     Summary.asset summary == Spec.typeTotal Asset accounts balances
     /\ Summary.liability summary == Spec.typeTotal Liability accounts balances
     /\ Summary.equity summary == Spec.typeTotal Equity accounts balances
     /\ Summary.revenue summary == Spec.typeTotal Revenue accounts balances
     /\ Summary.expense summary == Spec.typeTotal Expense accounts balances)
  /\ (forall accounts (balances : gmap string Q) account type,
        balances !! Account.id account = None ->
        Summary.get
          (BalanceEngine.getAccountTypeSummary (accounts ++ [account]) balances)
          type
        == Summary.get
             (BalanceEngine.getAccountTypeSummary accounts balances) type).
Proof.
  split.
  - intros accounts balances. cbv zeta.
    repeat split.
    + exact (getAccountTypeSummary_get accounts balances Asset).
    + exact (getAccountTypeSummary_get accounts balances Liability).
    + exact (getAccountTypeSummary_get accounts balances Equity).
    + exact (getAccountTypeSummary_get accounts balances Revenue).
    + exact (getAccountTypeSummary_get accounts balances Expense).
  - intros accounts balances account type Hnone.
    rewrite !getAccountTypeSummary_get. unfold Spec.typeTotal.
    rewrite sumWhere_app, sumWhere_cons, sumWhere_nil.
    unfold Spec.mappedBalance at 2. rewrite Hnone. simpl.
    destruct (decide (Account.type account = type)); ring.
Qed.

Lemma getAccountTypeSummary_spec_witness :
  Summary.get
    (BalanceEngine.getAccountTypeSummary (chartOfAccounts ++ [salesAccount])
       balancedBooks) Revenue
  == Summary.get
       (BalanceEngine.getAccountTypeSummary chartOfAccounts balancedBooks)
       Revenue.
Proof.
  apply (proj2 getAccountTypeSummary_spec chartOfAccounts balancedBooks
           salesAccount Revenue).
  vm_compute. reflexivity.
Defined.

(** ** The accounting equation *)


(** ** All account balances *)

Lemma calculateAllAccountBalances_snoc accounts account transactions :
  BalanceEngine.calculateAllAccountBalances (accounts ++ [account]) transactions
  = <[Account.id account :=
        BalanceEngine.calculateAccountBalance (Account.id account)
          (Account.type account) transactions]>
      (BalanceEngine.calculateAllAccountBalances accounts transactions).
Proof.
  unfold BalanceEngine.calculateAllAccountBalances.
  rewrite fold_left_app. reflexivity.
Qed.

Lemma calculateAllAccountBalances_dom accounts transactions :
  dom (BalanceEngine.calculateAllAccountBalances accounts transactions)
  = list_to_set (map Account.id accounts).
Proof.
  induction accounts as [|account accounts IH] using rev_ind.
  - unfold BalanceEngine.calculateAllAccountBalances. simpl.
    apply dom_empty_L.
  - rewrite calculateAllAccountBalances_snoc, dom_insert_L, IH, map_app.
    rewrite list_to_set_app_L. simpl.
    rewrite (right_id_L ∅ (∪)). apply (comm_L (∪)).
Qed.

(** The entry of an id is the balance of the last account carrying it. *)
Lemma calculateAllAccountBalances_last accounts transactions account :
  last (filter (fun a => Account.id a = Account.id account) accounts)
  = Some account ->
  BalanceEngine.calculateAllAccountBalances accounts transactions
    !! Account.id account
  = Some (BalanceEngine.calculateAccountBalance (Account.id account)
            (Account.type account) transactions).
Proof.
  induction accounts as [|a accounts IH] using rev_ind; [discriminate|].
  rewrite filter_app, filter_cons, filter_nil, calculateAllAccountBalances_snoc.
  destruct (decide (Account.id a = Account.id account)) as [Heq|Hne].
  - rewrite last_snoc. intros [= ->]. apply lookup_insert_eq.
  - rewrite app_nil_r, lookup_insert_ne by exact Hne. exact IH.
Qed.

Lemma last_filter_exists {A} (P : A -> Prop) `{!forall x, Decision (P x)}
    (xs : list A) (x : A) :
  In x xs -> P x -> exists y, last (filter P xs) = Some y /\ In y xs /\ P y.
Proof.
  intros Hin HP.
  assert (Hx : x ∈ filter P xs).
  { apply list_elem_of_filter. split; [exact HP|]. apply list_elem_of_In, Hin. }
  destruct (last (filter P xs)) as [y|] eqn:Hlast.
  - exists y. split; [reflexivity|].
    apply last_Some_elem_of, list_elem_of_filter in Hlast.
    destruct Hlast as [HPy Hy]. split; [apply list_elem_of_In, Hy|exact HPy].
  - apply last_None in Hlast. rewrite Hlast in Hx. inversion Hx.
Qed.

(** C10, as the code has it.  [calculateAllAccountBalances] is a function of
    its two arguments: equal account lists and equal ledgers give equal maps.
    The keys of the map are the ids of the accounts.  An id is mapped to the
    balance computed for the last account of the list that carries it; so
    every account is mapped to its own balance as soon as the accounts that
    share its id share its type, and in particular when ids are not
    repeated. *)
Theorem calculateAllAccountBalances_spec :
  (forall accounts1 accounts2 transactions1 transactions2,
     accounts1 = accounts2 -> transactions1 = transactions2 ->
     BalanceEngine.calculateAllAccountBalances accounts1 transactions1
     = BalanceEngine.calculateAllAccountBalances accounts2 transactions2)
  /\ (forall accounts transactions,
        dom (BalanceEngine.calculateAllAccountBalances accounts transactions)
        = list_to_set (map Account.id accounts))
  /\ (forall accounts transactions account,
        last (filter (fun a => Account.id a = Account.id account) accounts)
        = Some account ->
        BalanceEngine.calculateAllAccountBalances accounts transactions
          !! Account.id account
        = Some (BalanceEngine.calculateAccountBalance (Account.id account)
                  (Account.type account) transactions))
  /\ (forall accounts transactions account,
        In account accounts ->
        (forall other, In other accounts ->
           Account.id other = Account.id account ->
           Account.type other = Account.type account) ->
        BalanceEngine.calculateAllAccountBalances accounts transactions
          !! Account.id account
        = Some (BalanceEngine.calculateAccountBalance (Account.id account)
                  (Account.type account) transactions)).
Proof.
  split; [|split; [|split]].
  - intros accounts1 accounts2 transactions1 transactions2 -> ->. reflexivity.
  - exact calculateAllAccountBalances_dom.
  - exact calculateAllAccountBalances_last.
  - intros accounts transactions account Hin Hsame.
    destruct (last_filter_exists
                (fun a => Account.id a = Account.id account) accounts account
                Hin eq_refl) as (other & Hlast & Hother & Hid).
    rewrite <- Hid, <- (Hsame other Hother Hid).
    apply calculateAllAccountBalances_last. rewrite Hid. exact Hlast.
Qed.

Lemma calculateAllAccountBalances_spec_witness :
  BalanceEngine.calculateAllAccountBalances [tillAsAsset; tillAsRevenue]
    [cashSale] !! Account.id tillAsRevenue
  = Some (BalanceEngine.calculateAccountBalance (Account.id tillAsRevenue)
            (Account.type tillAsRevenue) [cashSale])
  /\ BalanceEngine.calculateAllAccountBalances chartOfAccounts
       [openingEntry; cashSale] !! Account.id loanAccount
     = Some (BalanceEngine.calculateAccountBalance (Account.id loanAccount)
               (Account.type loanAccount) [openingEntry; cashSale]).
Proof.
  destruct calculateAllAccountBalances_spec as (_ & _ & Hlast & Hown).
  split.
  - apply (Hlast [tillAsAsset; tillAsRevenue] [cashSale] tillAsRevenue).
    reflexivity.
  - apply (Hown chartOfAccounts [openingEntry; cashSale] loanAccount).
    + simpl. tauto.
    + intros other [<-|[<-|[<-|[]]]]; vm_compute; congruence.
Defined.

(** Two accounts of different types under one id: the map keeps the balance
    of the second one, which is not the balance of the first. *)
Lemma calculateAllAccountBalances_duplicate_id :
  let accounts := [tillAsAsset; tillAsRevenue] in
  let transactions := [cashSale] in
  In tillAsAsset accounts
  /\ BalanceEngine.calculateAllAccountBalances accounts transactions
       !! Account.id tillAsAsset = Some (-500)
  /\ BalanceEngine.calculateAccountBalance (Account.id tillAsAsset)
       (Account.type tillAsAsset) transactions == 500
  /\ ~ (exists balance,
          BalanceEngine.calculateAllAccountBalances accounts transactions
            !! Account.id tillAsAsset = Some balance
          /\ balance
             == BalanceEngine.calculateAccountBalance (Account.id tillAsAsset)
                  (Account.type tillAsAsset) transactions).
Proof.
  cbv zeta. split; [left; reflexivity|].
  split; [vm_compute; reflexivity|].
  split; [vm_compute; reflexivity|].
  intros (balance & Hlookup & Hbalance).
  vm_compute in Hlookup. injection Hlookup as <-.
  vm_compute in Hbalance. discriminate Hbalance.
Qed.

(** * Further properties of the engine *)

(** ** Account balances *)

Lemma postTransaction_untouched accountId accountType balance t :
  Transaction.debitAccount t <> accountId ->
  Transaction.creditAccount t <> accountId ->
  BalanceEngine.postTransaction accountId accountType balance t = balance.
Proof.
  intros Hd Hc. unfold BalanceEngine.postTransaction.
  apply String.eqb_neq in Hd, Hc. rewrite Hd, Hc. reflexivity.
Qed.

(** X1. An account that no transaction of the ledger debits or credits has
    the balance 0, whatever its type: ids that match nothing are passed over
    in silence. *)
Theorem calculateAccountBalance_unreferenced accountId accountType
    (transactions : list Transaction.t) :
  Forall (fun t => Transaction.debitAccount t <> accountId
                   /\ Transaction.creditAccount t <> accountId) transactions ->
  BalanceEngine.calculateAccountBalance accountId accountType transactions = 0.
Proof.
  unfold BalanceEngine.calculateAccountBalance. generalize 0.
  induction 1 as [|t ts [Hd Hc] _ IH]; [reflexivity|].
  simpl. rewrite postTransaction_untouched by assumption. exact IH.
Qed.

Lemma calculateAccountBalance_unreferenced_witness :
  BalanceEngine.calculateAccountBalance "bank" Asset [openingEntry; cashSale]
  = 0.
Proof.
  apply (calculateAccountBalance_unreferenced "bank" Asset
           [openingEntry; cashSale]).
  repeat constructor; vm_compute; congruence.
Defined.




Lemma total_Permutation (xs ys : list Q) :
  Permutation xs ys -> Spec.total xs == Spec.total ys.
Proof.
  induction 1 as [|x xs ys _ IH|x y xs|xs ys zs _ IH1 _ IH2]; simpl.
  - reflexivity.
  - rewrite IH. reflexivity.
  - ring.
  - rewrite IH1. exact IH2.
Qed.

(** X3. The balance of an account does not depend on the order in which the
    ledger lists its transactions (in the exact arithmetic of the model). *)
Theorem calculateAccountBalance_Permutation accountId accountType
    (xs ys : list Transaction.t) :
  Permutation xs ys ->
  BalanceEngine.calculateAccountBalance accountId accountType xs
  == BalanceEngine.calculateAccountBalance accountId accountType ys.
Proof.
  intros Hperm. rewrite !calculateAccountBalance_postings.
  apply total_Permutation, Permutation_map, Hperm.
Qed.

Lemma calculateAccountBalance_Permutation_witness :
  BalanceEngine.calculateAccountBalance "cash" Asset
    [openingEntry; selfPosting; customerIncome]
  == BalanceEngine.calculateAccountBalance "cash" Asset
       [customerIncome; openingEntry; selfPosting].
Proof.
  apply (calculateAccountBalance_Permutation "cash" Asset
           [openingEntry; selfPosting; customerIncome]
           [customerIncome; openingEntry; selfPosting]).
  apply Permutation_sym.
  exact (Permutation_cons_append [openingEntry; selfPosting] customerIncome).
Defined.

(** ** The trial balance *)

Lemma total_map_ext {A} (f g : A -> Q) (xs : list A) :
  (forall x, In x xs -> f x == g x) ->
  Spec.total (map f xs) == Spec.total (map g xs).
Proof.
  induction xs as [|x xs IH]; intros Hfg; simpl; [reflexivity|].
  rewrite (Hfg x (or_introl eq_refl)), IH; [reflexivity|].
  intros y Hy. apply Hfg. right. exact Hy.
Qed.

Lemma total_map_plus {A} (f g : A -> Q) (xs : list A) :
  Spec.total (map (fun x => f x + g x) xs)
  == Spec.total (map f xs) + Spec.total (map g xs).
Proof.
  induction xs as [|x xs IH]; [cbn [Spec.total map foldr]; ring|].
  simpl. rewrite IH. ring.
Qed.

Lemma total_map_scale {A} (c : Q) (f : A -> Q) (xs : list A) :
  Spec.total (map (fun x => c * f x) xs) == c * Spec.total (map f xs).
Proof.
  induction xs as [|x xs IH]; [cbn [Spec.total map foldr]; ring|].
  simpl. rewrite IH. ring.
Qed.

Lemma total_map_zero {A} (f : A -> Q) (xs : list A) :
  (forall x, In x xs -> f x == 0) -> Spec.total (map f xs) == 0.
Proof.
  intros Hf. rewrite (total_map_ext f (fun _ => 0) xs Hf). clear Hf.
  induction xs as [|x xs IH]; [reflexivity|]. simpl. rewrite IH. ring.
Qed.

Lemma sumWhere_ext_in {A} (P : A -> Prop) `{!forall x, Decision (P x)}
    (f g : A -> Q) (xs : list A) :
  (forall x, In x xs -> f x == g x) ->
  Spec.sumWhere P f xs == Spec.sumWhere P g xs.
Proof.
  intros Hfg. unfold Spec.sumWhere. apply total_map_ext.
  intros x Hx. apply Hfg.
  apply list_elem_of_In, list_elem_of_filter in Hx.
  apply list_elem_of_In, Hx.
Qed.

Lemma NoDup_map_eq {A B} (f : A -> B) (xs : list A) (x y : A) :
  List.NoDup (map f xs) -> In x xs -> In y xs -> f x = f y -> x = y.
Proof.
  induction xs as [|z xs IH]; simpl; [tauto|].
  intros Hnd [->|Hx] [->|Hy] Hf; inversion Hnd as [|? ? Hnotin Hnd']; subst.
  - reflexivity.
  - exfalso. apply Hnotin. rewrite Hf. apply in_map, Hy.
  - exfalso. apply Hnotin. rewrite <- Hf. apply in_map, Hx.
  - apply IH; assumption.
Qed.

(** With ids that are not repeated, every account finds its own balance in
    the map. *)
Lemma calculateAllAccountBalances_own accounts transactions account :
  List.NoDup (map Account.id accounts) -> In account accounts ->
  BalanceEngine.calculateAllAccountBalances accounts transactions
    !! Account.id account
  = Some (BalanceEngine.calculateAccountBalance (Account.id account)
            (Account.type account) transactions).
Proof.
  intros Hnd Hin.
  destruct (last_filter_exists
              (fun a => Account.id a = Account.id account) accounts account
              Hin eq_refl) as (other & Hlast & Hother & Hid).
  assert (other = account) as -> by (eapply NoDup_map_eq; eassumption).
  apply calculateAllAccountBalances_last. exact Hlast.
Qed.

Lemma typeTotal_engine type accounts transactions :
  List.NoDup (map Account.id accounts) ->
  Spec.typeTotal type accounts
    (BalanceEngine.calculateAllAccountBalances accounts transactions)
  == Spec.sumWhere (fun a => Account.type a = type)
       (fun a => BalanceEngine.calculateAccountBalance (Account.id a)
                   (Account.type a) transactions) accounts.
Proof.
  intros Hnd. unfold Spec.typeTotal. apply sumWhere_ext_in.
  intros a Ha. unfold Spec.mappedBalance.
  rewrite (calculateAllAccountBalances_own _ _ _ Hnd Ha). reflexivity.
Qed.

(** Debit-side buckets minus credit-side buckets, as one signed sum. *)
Lemma signed_buckets (g : Account.t -> Q) (accounts : list Account.t) :
  Spec.sumWhere (fun a => Account.type a = Asset) g accounts
  + Spec.sumWhere (fun a => Account.type a = Expense) g accounts
  - Spec.sumWhere (fun a => Account.type a = Liability) g accounts
  - Spec.sumWhere (fun a => Account.type a = Equity) g accounts
  - Spec.sumWhere (fun a => Account.type a = Revenue) g accounts
  == Spec.total (map (fun a => side (Account.type a) * g a) accounts).
Proof.
  induction accounts as [|a accounts IH]; [reflexivity|].
  rewrite !sumWhere_cons. simpl. rewrite <- IH.
  destruct (Account.type a); simpl; unfold side; simpl; ring.
Qed.

Lemma signed_posting accountId accountType t :
  side accountType * posting accountId accountType t
  == Transaction.amount t
     * ((if decide (Transaction.debitAccount t = accountId) then 1 else 0)
        - (if decide (Transaction.creditAccount t = accountId) then 1 else 0)).
Proof.
  unfold side, posting, Spec.debited, Spec.credited.
  destruct (Spec.normalDebit accountType);
  destruct (decide (Transaction.debitAccount t = accountId));
  destruct (decide (Transaction.creditAccount t = accountId)); ring.
Qed.

Lemma occurrences_cons id a accounts :
  occurrences id (a :: accounts)
  = (if decide (id = Account.id a) then 1 else 0) + occurrences id accounts.
Proof. reflexivity. Qed.

Lemma occurrences_absent id accounts :
  ~ In id (map Account.id accounts) -> occurrences id accounts == 0.
Proof.
  intros Hnotin. unfold occurrences. apply total_map_zero.
  intros a Ha. destruct (decide (id = Account.id a)) as [->|]; [|reflexivity].
  exfalso. apply Hnotin, in_map, Ha.
Qed.

Lemma occurrences_NoDup id accounts :
  List.NoDup (map Account.id accounts) ->
  In id (map Account.id accounts) -> occurrences id accounts == 1.
Proof.
  induction accounts as [|a accounts IH]; intros Hnd Hin; [destruct Hin|].
  inversion Hnd as [|? ? Hnotin Hnd']; subst.
  rewrite occurrences_cons.
  destruct (decide (id = Account.id a)) as [->|Hne].
  - rewrite (occurrences_absent _ _ Hnotin). ring.
  - destruct Hin as [Heq|Hin]; [congruence|].
    rewrite (IH Hnd' Hin). ring.
Qed.

Lemma occurrences_both_sides accounts t :
  List.NoDup (map Account.id accounts) ->
  (In (Transaction.debitAccount t) (map Account.id accounts)
   <-> In (Transaction.creditAccount t) (map Account.id accounts)) ->
  occurrences (Transaction.debitAccount t) accounts
  == occurrences (Transaction.creditAccount t) accounts.
Proof.
  intros Hnd Hiff.
  destruct (in_dec string_dec (Transaction.debitAccount t)
              (map Account.id accounts)) as [Hd|Hd].
  - rewrite !occurrences_NoDup by tauto. reflexivity.
  - rewrite !occurrences_absent by tauto. reflexivity.
Qed.

(** The signed sum of the balances of all accounts, transaction by
    transaction: every transaction counts once for each account it debits
    and once, negatively, for each account it credits. *)
Lemma signed_balances accounts transactions :
  Spec.total
    (map (fun a => side (Account.type a)
                   * BalanceEngine.calculateAccountBalance (Account.id a)
                       (Account.type a) transactions) accounts)
  == Spec.total
       (map (fun t => Transaction.amount t
                      * (occurrences (Transaction.debitAccount t) accounts
                         - occurrences (Transaction.creditAccount t) accounts))
            transactions).
Proof.
  induction accounts as [|a accounts IH].
  - symmetry. apply total_map_zero. intros t _. unfold occurrences.
    cbn [Spec.total map foldr]. ring.
  - simpl. rewrite IH, calculateAccountBalance_postings.
    rewrite <- total_map_scale, <- total_map_plus.
    apply total_map_ext. intros t _.
    rewrite signed_posting, !occurrences_cons. ring.
Qed.

Lemma engine_buckets accounts transactions :
  List.NoDup (map Account.id accounts) ->
  Forall (fun t =>
            In (Transaction.debitAccount t) (map Account.id accounts)
            <-> In (Transaction.creditAccount t) (map Account.id accounts))
         transactions ->
  let summary :=
    BalanceEngine.getAccountTypeSummary accounts
      (BalanceEngine.calculateAllAccountBalances accounts transactions) in
  Summary.asset summary + Summary.expense summary
  - Summary.liability summary - Summary.equity summary
  - Summary.revenue summary == 0.
Proof.
  intros Hnd Hsides. cbv zeta.
  pose proof (fun type =>
    getAccountTypeSummary_get accounts
      (BalanceEngine.calculateAllAccountBalances accounts transactions) type)
    as Hget.
  pose proof (Hget Asset) as Ha. pose proof (Hget Expense) as Hx.
  pose proof (Hget Liability) as Hl. pose proof (Hget Equity) as He.
  pose proof (Hget Revenue) as Hr. cbn [Summary.get] in Ha, Hx, Hl, He, Hr.
  rewrite Ha, Hx, Hl, He, Hr.
  rewrite !(typeTotal_engine _ _ _ Hnd), signed_buckets, signed_balances.
  apply total_map_zero. intros t Ht.
  pose proof (proj1 (List.Forall_forall _ _) Hsides t Ht) as Hboth.
  rewrite (occurrences_both_sides accounts t Hnd Hboth). ring.
Qed.

(** X4. Trial balance, in the exact arithmetic of the model.  When the
    account ids are not repeated and every
    transaction has both of its sides in the chart of accounts, or neither,
    the balances computed by [calculateAllAccountBalances] and summed by
    [getAccountTypeSummary] satisfy
    assets + expenses = liabilities + equity + revenue. *)
Theorem engine_trial_balance accounts transactions :
  List.NoDup (map Account.id accounts) ->
  Forall (fun t =>
            In (Transaction.debitAccount t) (map Account.id accounts)
            <-> In (Transaction.creditAccount t) (map Account.id accounts))
         transactions ->
  let summary :=
    BalanceEngine.getAccountTypeSummary accounts
      (BalanceEngine.calculateAllAccountBalances accounts transactions) in
  Summary.asset summary + Summary.expense summary
  == Summary.liability summary + Summary.equity summary
     + Summary.revenue summary.
Proof.
  intros Hnd Hsides. pose proof (engine_buckets _ _ Hnd Hsides) as H.
  cbv zeta in *. lra.
Qed.

Lemma fullChart_NoDup : List.NoDup (map Account.id fullChart).
Proof.
  repeat (constructor; [simpl; intuition discriminate|]). constructor.
Qed.

Lemma generalLedger_sides :
  Forall (fun t =>
            In (Transaction.debitAccount t) (map Account.id fullChart)
            <-> In (Transaction.creditAccount t) (map Account.id fullChart))
         generalLedger.
Proof.
  unfold generalLedger.
  repeat (apply List.Forall_cons;
          [simpl; split; intros H;
           repeat (destruct H as [H|H]; try discriminate H);
           try contradiction; auto 10|]).
  apply List.Forall_nil.
Qed.

Lemma engine_trial_balance_witness :
  let summary :=
    BalanceEngine.getAccountTypeSummary fullChart
      (BalanceEngine.calculateAllAccountBalances fullChart generalLedger) in
  Summary.asset summary + Summary.expense summary
  == Summary.liability summary + Summary.equity summary
     + Summary.revenue summary.
Proof.
  exact (engine_trial_balance fullChart generalLedger fullChart_NoDup
           generalLedger_sides).
Defined.

(** X5. In the exact arithmetic of the model, on the balances the engine
    computes itself, under the same two
    conditions, the difference reported by [verifyAccountingEquation] is the
    distance between the revenue and the expense buckets; the books are
    reported as balanced exactly when revenue and expenses are within 0.01 of
    each other. *)
Theorem verifyAccountingEquation_net_income accounts transactions :
  List.NoDup (map Account.id accounts) ->
  Forall (fun t =>
            In (Transaction.debitAccount t) (map Account.id accounts)
            <-> In (Transaction.creditAccount t) (map Account.id accounts))
         transactions ->
  let balances :=
    BalanceEngine.calculateAllAccountBalances accounts transactions in
  let summary := BalanceEngine.getAccountTypeSummary accounts balances in
  let report := BalanceEngine.verifyAccountingEquation accounts balances in
  EquationCheck.difference report
  == Qabs (Summary.revenue summary - Summary.expense summary)
  /\ (EquationCheck.isBalanced report = true
      <-> Qabs (Summary.revenue summary - Summary.expense summary) < 1 # 100).
Proof.
  intros Hnd Hsides. pose proof (engine_buckets _ _ Hnd Hsides) as H.
  cbv zeta in *. unfold BalanceEngine.verifyAccountingEquation.
  cbn [EquationCheck.difference EquationCheck.isBalanced].
  set (summary := BalanceEngine.getAccountTypeSummary accounts _) in *.
  assert (Hdiff : Summary.asset summary
                  - (Summary.liability summary + Summary.equity summary)
                  == Summary.revenue summary - Summary.expense summary)
    by lra.
  rewrite Qltb_lt, Hdiff. split; reflexivity.
Qed.

Lemma verifyAccountingEquation_net_income_witness :
  let balances :=
    BalanceEngine.calculateAllAccountBalances fullChart generalLedger in
  let summary := BalanceEngine.getAccountTypeSummary fullChart balances in
  let report := BalanceEngine.verifyAccountingEquation fullChart balances in
  EquationCheck.difference report
  == Qabs (Summary.revenue summary - Summary.expense summary)
  /\ (EquationCheck.isBalanced report = true
      <-> Qabs (Summary.revenue summary - Summary.expense summary) < 1 # 100).
Proof.
  exact (verifyAccountingEquation_net_income fullChart generalLedger
           fullChart_NoDup generalLedger_sides).
Defined.

(** X6. In the exact arithmetic of the model, the five buckets of
    [getAccountTypeSummary] add up to the sum, over all listed accounts, of
    the balance the map has for the account (0 when it has none); an account
    listed twice counts twice. *)
Theorem getAccountTypeSummary_grand_total accounts (balances : gmap string Q) :
  let summary := BalanceEngine.getAccountTypeSummary accounts balances in
  Summary.asset summary + Summary.liability summary + Summary.equity summary
  + Summary.revenue summary + Summary.expense summary
  == Spec.total (map (fun a => default 0 (balances !! Account.id a)) accounts).
Proof.
  cbv zeta.
  pose proof (getAccountTypeSummary_get accounts balances) as Hget.
  pose proof (Hget Asset) as Ha. pose proof (Hget Expense) as Hx.
  pose proof (Hget Liability) as Hl. pose proof (Hget Equity) as He.
  pose proof (Hget Revenue) as Hr. cbn [Summary.get] in Ha, Hx, Hl, He, Hr.
  rewrite Ha, Hx, Hl, He, Hr. clear. unfold Spec.typeTotal.
  induction accounts as [|a accounts IH]; [reflexivity|].
  rewrite !sumWhere_cons. simpl. rewrite <- IH. unfold Spec.mappedBalance.
  destruct (Account.type a); simpl; ring.
Qed.

(** ** Contact balances, continued *)

Lemma calculateAllContactBalances_snoc contacts contact invoices transactions :
  BalanceEngine.calculateAllContactBalances (contacts ++ [contact]) invoices
    transactions
  = <[Contact.id contact := contactBalance contact invoices transactions]>
      (BalanceEngine.calculateAllContactBalances contacts invoices
         transactions).
Proof.
  unfold BalanceEngine.calculateAllContactBalances, contactBalance.
  rewrite fold_left_app. simpl. destruct (Contact.type contact); reflexivity.
Qed.

(** X7. The map of [calculateAllContactBalances] has no entry for an id that
    no contact carries; an id that is carried is mapped to the customer
    balance or to the vendor balance of that id, according to the type of the
    last contact of the list that carries it. *)
Theorem calculateAllContactBalances_lookup contacts invoices transactions :
  (forall id, ~ In id (map Contact.id contacts) ->
     BalanceEngine.calculateAllContactBalances contacts invoices transactions
       !! id = None)
  /\ (forall contact,
        last (filter (fun c => Contact.id c = Contact.id contact) contacts)
        = Some contact ->
        BalanceEngine.calculateAllContactBalances contacts invoices
          transactions !! Contact.id contact
        = Some match Contact.type contact with
               | Customer =>
                   BalanceEngine.calculateCustomerBalance (Contact.id contact)
                     invoices transactions
               | Vendor =>
                   BalanceEngine.calculateVendorBalance (Contact.id contact)
                     transactions
               end).
Proof.
  split.
  - intros id. induction contacts as [|c contacts IH] using rev_ind.
    + intros _. apply lookup_empty.
    + rewrite map_app, in_app_iff. simpl. intros Hnotin.
      rewrite calculateAllContactBalances_snoc, lookup_insert_ne by tauto.
      apply IH. tauto.
  - intros contact.
    induction contacts as [|c contacts IH] using rev_ind; [discriminate|].
    rewrite filter_app, filter_cons, filter_nil,
      calculateAllContactBalances_snoc.
    destruct (decide (Contact.id c = Contact.id contact)) as [Heq|Hne].
    + rewrite last_snoc. intros [= ->]. apply lookup_insert_eq.
    + rewrite app_nil_r, lookup_insert_ne by exact Hne. exact IH.
Qed.

Lemma calculateAllContactBalances_lookup_witness :
  BalanceEngine.calculateAllContactBalances
    [regularCustomer; furnitureVendor] [unpaidInvoice]
    [vendorBill; customerIncome] !! "c9" = None
  /\ BalanceEngine.calculateAllContactBalances
       [regularCustomer; furnitureVendor] [unpaidInvoice]
       [vendorBill; customerIncome] !! Contact.id furnitureVendor
     = Some (BalanceEngine.calculateVendorBalance (Contact.id furnitureVendor)
               [vendorBill; customerIncome]).
Proof.
  destruct (calculateAllContactBalances_lookup
              [regularCustomer; furnitureVendor] [unpaidInvoice]
              [vendorBill; customerIncome]) as [Hmissing Hfound].
  split.
  - apply Hmissing. simpl. intuition discriminate.
  - apply (Hfound furnitureVendor). reflexivity.
Defined.

Lemma filter_filter_imp {A} (p q : A -> bool) (xs : list A) :
  (forall x, p x = true -> q x = true) ->
  List.filter p (List.filter q xs) = List.filter p xs.
Proof.
  intros Hpq. induction xs as [|x xs IH]; [reflexivity|]. simpl.
  destruct (q x) eqn:Hq; simpl.
  - rewrite IH. reflexivity.
  - destruct (p x) eqn:Hp; [|exact IH].
    apply Hpq in Hp. congruence.
Qed.

(** X8. The records of other customers never reach a customer's balance:
    two sets of books whose invoices for the customer agree and whose
    transactions with the customer as contact agree give the same
    balance. *)
Theorem calculateCustomerBalance_own_records customerId
    (invoices1 invoices2 : list Invoice.t)
    (transactions1 transactions2 : list Transaction.t) :
  List.filter (fun inv => String.eqb (Invoice.customerId inv) customerId)
    invoices1
  = List.filter (fun inv => String.eqb (Invoice.customerId inv) customerId)
      invoices2 ->
  List.filter (fun t => optStringIs (Transaction.contact t) customerId)
    transactions1
  = List.filter (fun t => optStringIs (Transaction.contact t) customerId)
      transactions2 ->
  BalanceEngine.calculateCustomerBalance customerId invoices1 transactions1
  = BalanceEngine.calculateCustomerBalance customerId invoices2 transactions2.
Proof.
  intros Hinv Htxn. unfold BalanceEngine.calculateCustomerBalance. cbv zeta.
  rewrite <- (filter_filter_imp _
                (fun inv => String.eqb (Invoice.customerId inv) customerId)
                invoices1),
          <- (filter_filter_imp _
                (fun inv => String.eqb (Invoice.customerId inv) customerId)
                invoices2),
          <- (filter_filter_imp _
                (fun t => optStringIs (Transaction.contact t) customerId)
                transactions1),
          <- (filter_filter_imp _
                (fun t => optStringIs (Transaction.contact t) customerId)
                transactions2).
  - rewrite Hinv, Htxn. reflexivity.
  - intros t H. apply andb_true_iff in H as [H _].
    apply andb_true_iff in H as [H _]. exact H.
  - intros t H. apply andb_true_iff in H as [H _].
    apply andb_true_iff in H as [H _]. exact H.
  - intros inv H. apply andb_true_iff in H as [H _]. exact H.
  - intros inv H. apply andb_true_iff in H as [H _]. exact H.
Qed.

Lemma calculateCustomerBalance_own_records_witness :
  BalanceEngine.calculateCustomerBalance "c1"
    [unpaidInvoice; otherCustomersInvoice] [vendorBill; customerIncome]
  = BalanceEngine.calculateCustomerBalance "c1"
      [unpaidInvoice] [customerIncome; otherVendorsBill].
Proof.
  apply (calculateCustomerBalance_own_records "c1"
           [unpaidInvoice; otherCustomersInvoice] [unpaidInvoice]
           [vendorBill; customerIncome] [customerIncome; otherVendorsBill]);
    reflexivity.
Defined.

(** X9. Likewise for vendors: only the transactions that name the vendor as
    contact reach the vendor's balance. *)
Theorem calculateVendorBalance_own_records vendorId
    (transactions1 transactions2 : list Transaction.t) :
  List.filter (fun t => optStringIs (Transaction.contact t) vendorId)
    transactions1
  = List.filter (fun t => optStringIs (Transaction.contact t) vendorId)
      transactions2 ->
  BalanceEngine.calculateVendorBalance vendorId transactions1
  = BalanceEngine.calculateVendorBalance vendorId transactions2.
Proof.
  intros Htxn. unfold BalanceEngine.calculateVendorBalance. cbv zeta.
  assert (Hown : forall (rest : Transaction.t -> bool) txns,
            List.filter (fun t =>
              optStringIs (Transaction.contact t) vendorId
              && optContactTypeIs (Transaction.contactType t) Vendor
              && rest t) txns
            = List.filter (fun t =>
                optStringIs (Transaction.contact t) vendorId
                && optContactTypeIs (Transaction.contactType t) Vendor
                && rest t)
                (List.filter
                   (fun t => optStringIs (Transaction.contact t) vendorId)
                   txns)).
  { intros rest txns. symmetry. apply filter_filter_imp.
    intros t H. apply andb_true_iff in H as [H _].
    apply andb_true_iff in H as [H _]. exact H. }
  rewrite (Hown _ transactions1), (Hown _ transactions2).
  rewrite (Hown (fun t => includes (toLowerCase (Transaction.description t))
                            "payment") transactions1),
          (Hown (fun t => includes (toLowerCase (Transaction.description t))
                            "payment") transactions2).
  rewrite Htxn. reflexivity.
Qed.

Lemma calculateVendorBalance_own_records_witness :
  BalanceEngine.calculateVendorBalance "v1"
    [vendorBill; otherVendorsBill; vendorRebate]
  = BalanceEngine.calculateVendorBalance "v1"
      [customerIncome; vendorBill; vendorRebate].
Proof.
  apply (calculateVendorBalance_own_records "v1"
           [vendorBill; otherVendorsBill; vendorRebate]
           [customerIncome; vendorBill; vendorRebate]).
  reflexivity.
Defined.

(** X10. Settling an invoice twice over, in the exact arithmetic of the
    model.  For an unpaid invoice of the
    customer, setting its status to paid lowers the customer balance by the
    amount of the invoice; recording an income transaction from the customer
    lowers it by the amount of the transaction; doing both lowers it by
    both. *)
Theorem calculateCustomerBalance_settlement customerId
    (before after : list Invoice.t) (inv : Invoice.t)
    (earlier later : list Transaction.t) (t : Transaction.t) :
  Invoice.customerId inv = customerId ->
  Invoice.status inv <> Paid ->
  Transaction.contact t = Some customerId ->
  Transaction.contactType t = Some Customer ->
  Transaction.type t = TxIncome ->
  BalanceEngine.calculateCustomerBalance customerId
    (before ++ markPaid inv :: after) (earlier ++ later)
  == BalanceEngine.calculateCustomerBalance customerId
       (before ++ inv :: after) (earlier ++ later) - Invoice.amount inv
  /\ BalanceEngine.calculateCustomerBalance customerId
       (before ++ inv :: after) (earlier ++ t :: later)
     == BalanceEngine.calculateCustomerBalance customerId
          (before ++ inv :: after) (earlier ++ later) - Transaction.amount t
  /\ BalanceEngine.calculateCustomerBalance customerId
       (before ++ markPaid inv :: after) (earlier ++ t :: later)
     == BalanceEngine.calculateCustomerBalance customerId
          (before ++ inv :: after) (earlier ++ later)
        - Invoice.amount inv - Transaction.amount t.
Proof.
  intros Hid Hstatus Hc Hk Hty.
  pose proof (proj2 (customerInvoice_test customerId inv) (conj Hid Hstatus))
    as Hunpaid.
  assert (Hpaid : String.eqb (Invoice.customerId (markPaid inv)) customerId
                  && negb (InvoiceStatus_eqb (Invoice.status (markPaid inv))
                             Paid) = false).
  { simpl. apply andb_false_r. }
  pose proof (proj2 (contactTransaction_test customerId Customer TxIncome t)
                (conj Hc (conj Hk Hty))) as Hincome.
  unfold BalanceEngine.calculateCustomerBalance. cbv zeta.
  rewrite !reduceSum_filter_insert, Hunpaid, Hpaid, Hincome.
  repeat split; ring.
Qed.

Lemma calculateCustomerBalance_settlement_witness :
  BalanceEngine.calculateCustomerBalance "c1"
    ([otherCustomersInvoice] ++ markPaid unpaidInvoice :: [])
    ([vendorBill] ++ customerIncome :: [])
  == BalanceEngine.calculateCustomerBalance "c1"
       ([otherCustomersInvoice] ++ unpaidInvoice :: []) ([vendorBill] ++ [])
     - Invoice.amount unpaidInvoice - Transaction.amount customerIncome.
Proof.
  apply (calculateCustomerBalance_settlement "c1" [otherCustomersInvoice] []
           unpaidInvoice [vendorBill] [] customerIncome);
    (reflexivity || discriminate).
Defined.

Lemma total_nonneg (xs : list Q) :
  Forall (fun x => 0 <= x) xs -> 0 <= Spec.total xs.
Proof.
  induction 1 as [|x xs Hx _ IH]; simpl; [apply Qle_refl|].
  replace 0 with (0 + 0) by reflexivity. apply Qplus_le_compat; assumption.
Qed.

Lemma reduceSum_filter_nonneg {A} (p : A -> bool) (f : A -> Q) (xs : list A) :
  Forall (fun x => 0 <= f x) xs -> 0 <= reduceSum f (List.filter p xs).
Proof.
  intros Hf. rewrite reduceSum_total. apply total_nonneg.
  induction Hf as [|x xs Hx _ IH]; simpl; [constructor|].
  destruct (p x); simpl; [constructor; assumption|exact IH].
Qed.

(** X11. In the exact arithmetic of the model, with amounts that are not
    negative, a vendor balance never exceeds
    the total of the vendor's expense transactions, and a customer balance
    never exceeds the total of the customer's unpaid invoices. *)
Theorem contact_balances_bounded contactId (invoices : list Invoice.t)
    (transactions : list Transaction.t) :
  Forall (fun t => 0 <= Transaction.amount t) transactions ->
  BalanceEngine.calculateVendorBalance contactId transactions
  <= Spec.sumWhere (fun t => Transaction.contact t = Some contactId
                             /\ Transaction.contactType t = Some Vendor
                             /\ Transaction.type t = TxExpense)
       Transaction.amount transactions
  /\ BalanceEngine.calculateCustomerBalance contactId invoices transactions
     <= Spec.sumWhere (fun inv => Invoice.customerId inv = contactId
                                  /\ Invoice.status inv <> Paid)
          Invoice.amount invoices.
Proof.
  intros Hpos. split.
  - unfold BalanceEngine.calculateVendorBalance. cbv zeta.
    rewrite (reduceSum_filter _ _ _ _
               (contactTransaction_test contactId Vendor TxExpense)).
    pose proof (reduceSum_filter_nonneg
                  (fun txn =>
                     optStringIs (Transaction.contact txn) contactId
                     && optContactTypeIs (Transaction.contactType txn) Vendor
                     && includes (toLowerCase (Transaction.description txn))
                          "payment") Transaction.amount transactions Hpos).
    lra.
  - unfold BalanceEngine.calculateCustomerBalance. cbv zeta.
    rewrite (reduceSum_filter _ _ _ _ (customerInvoice_test contactId)).
    pose proof (reduceSum_filter_nonneg
                  (fun txn =>
                     optStringIs (Transaction.contact txn) contactId
                     && optContactTypeIs (Transaction.contactType txn) Customer
                     && TransactionType_eqb (Transaction.type txn) TxIncome)
                  Transaction.amount transactions Hpos).
    lra.
Qed.

Lemma contact_balances_bounded_witness :
  BalanceEngine.calculateVendorBalance "v1" [vendorBill; vendorRebate]
  <= Spec.sumWhere (fun t => Transaction.contact t = Some "v1"
                             /\ Transaction.contactType t = Some Vendor
                             /\ Transaction.type t = TxExpense)
       Transaction.amount [vendorBill; vendorRebate]
  /\ BalanceEngine.calculateCustomerBalance "v1" [unpaidInvoice]
       [vendorBill; vendorRebate]
     <= Spec.sumWhere (fun inv => Invoice.customerId inv = "v1"
                                  /\ Invoice.status inv <> Paid)
          Invoice.amount [unpaidInvoice].
Proof.
  apply (contact_balances_bounded "v1" [unpaidInvoice]
           [vendorBill; vendorRebate]).
  repeat constructor; vm_compute; discriminate.
Defined.

Lemma reduceSum_filter_app {A} (p : A -> bool) (f : A -> Q) (xs ys : list A) :
  reduceSum f (List.filter p (xs ++ ys))
  == reduceSum f (List.filter p xs) + reduceSum f (List.filter p ys).
Proof.
  rewrite !reduceSum_total, List.filter_app, map_app. apply total_app.
Qed.

(** X12. Contact balances add up over periods: the customer balance over two
    sets of invoices and transactions put together is the sum of the balances
    over each set, and so is the vendor balance over two ledgers put
    together. *)
Theorem contact_balances_app contactId (invoices1 invoices2 : list Invoice.t)
    (transactions1 transactions2 : list Transaction.t) :
  BalanceEngine.calculateCustomerBalance contactId (invoices1 ++ invoices2)
    (transactions1 ++ transactions2)
  == BalanceEngine.calculateCustomerBalance contactId invoices1 transactions1
     + BalanceEngine.calculateCustomerBalance contactId invoices2 transactions2
  /\ BalanceEngine.calculateVendorBalance contactId
       (transactions1 ++ transactions2)
     == BalanceEngine.calculateVendorBalance contactId transactions1
        + BalanceEngine.calculateVendorBalance contactId transactions2.
Proof.
  unfold BalanceEngine.calculateCustomerBalance,
    BalanceEngine.calculateVendorBalance.
  cbv zeta. rewrite !reduceSum_filter_app. split; ring.
Qed.

(** ** Presentation helpers *)

Lemma Qabs_opp_eq (a : Q) : Qabs (- a) = Qabs a.
Proof. destruct a as [n d]. simpl. rewrite Z.abs_opp. reflexivity. Qed.

(** X14. [formatCurrency] drops the sign: whatever the number formatter
    is, an amount and its opposite are formatted to the same string, which
    starts with "K". *)
Theorem formatCurrency_sign_dropped (numberFormat : Q -> string) (amount : Q) :
  BalanceEngine.formatCurrency numberFormat (- amount)
  = BalanceEngine.formatCurrency numberFormat amount
  /\ String.prefix "K" (BalanceEngine.formatCurrency numberFormat amount)
     = true.
Proof.
  unfold BalanceEngine.formatCurrency. rewrite Qabs_opp_eq.
  split; [destruct (Qltb (- amount) 0), (Qltb amount 0); reflexivity|].
  apply prefix_spec. eexists. reflexivity.
Qed.

(** ** The accounting equation, continued *)

Lemma sumWhere_filter_imp {A} (P : A -> Prop) `{!forall x, Decision (P x)}
    (keep : A -> bool) (f : A -> Q) (xs : list A) :
  (forall x, P x -> keep x = true) ->
  Spec.sumWhere P f (List.filter keep xs) = Spec.sumWhere P f xs.
Proof.
  intros Hkeep. induction xs as [|x xs IH]; [reflexivity|]. simpl.
  destruct (keep x) eqn:Hx.
  - rewrite !sumWhere_cons, IH. reflexivity.
  - rewrite sumWhere_cons, IH.
    destruct (decide (P x)) as [HP|]; [|reflexivity].
    apply Hkeep in HP. congruence.
Qed.

Lemma Qltb_proper (a b c : Q) : a == b -> Qltb a c = Qltb b c.
Proof.
  intros Hab. apply eq_true_iff_eq. rewrite !Qltb_lt, Hab. reflexivity.
Qed.

(** X15. [verifyAccountingEquation] never looks at revenue and expense
    accounts: removing them from the list of accounts changes no field of the
    report. *)
Theorem verifyAccountingEquation_balance_sheet_only accounts
    (balances : gmap string Q) :
  let kept :=
    List.filter (fun a => negb (AccountType_eqb (Account.type a) Revenue
                                || AccountType_eqb (Account.type a) Expense))
                accounts in
  let report := BalanceEngine.verifyAccountingEquation accounts balances in
  let report' := BalanceEngine.verifyAccountingEquation kept balances in
  EquationCheck.isBalanced report = EquationCheck.isBalanced report'
  /\ EquationCheck.assets report == EquationCheck.assets report'
  /\ EquationCheck.liabilities report == EquationCheck.liabilities report'
  /\ EquationCheck.equity report == EquationCheck.equity report'
  /\ EquationCheck.difference report == EquationCheck.difference report'.
Proof.
  cbv zeta. unfold BalanceEngine.verifyAccountingEquation.
  cbn [EquationCheck.assets EquationCheck.liabilities EquationCheck.equity
       EquationCheck.difference EquationCheck.isBalanced].
  set (keep := fun a => negb (AccountType_eqb (Account.type a) Revenue
                              || AccountType_eqb (Account.type a) Expense)).
  assert (Hsame : forall type, type = Asset \/ type = Liability \/ type = Equity ->
            Summary.get (BalanceEngine.getAccountTypeSummary accounts balances)
              type
            == Summary.get
                 (BalanceEngine.getAccountTypeSummary
                    (List.filter keep accounts) balances) type).
  { intros type Htype. rewrite !getAccountTypeSummary_get.
    unfold Spec.typeTotal. rewrite sumWhere_filter_imp; [reflexivity|].
    intros a Ha. unfold keep. rewrite Ha.
    destruct Htype as [->|[->| ->]]; reflexivity. }
  pose proof (Hsame Asset (or_introl eq_refl)) as Ha.
  pose proof (Hsame Liability (or_intror (or_introl eq_refl))) as Hl.
  pose proof (Hsame Equity (or_intror (or_intror eq_refl))) as He.
  cbn [Summary.get] in Ha, Hl, He.
  assert (Hdiff :
    Qabs (Summary.asset (BalanceEngine.getAccountTypeSummary accounts balances)
          - (Summary.liability
               (BalanceEngine.getAccountTypeSummary accounts balances)
             + Summary.equity
                 (BalanceEngine.getAccountTypeSummary accounts balances)))
    == Qabs (Summary.asset
               (BalanceEngine.getAccountTypeSummary (List.filter keep accounts)
                  balances)
             - (Summary.liability
                  (BalanceEngine.getAccountTypeSummary
                     (List.filter keep accounts) balances)
                + Summary.equity
                    (BalanceEngine.getAccountTypeSummary
                       (List.filter keep accounts) balances)))).
  { rewrite Ha, Hl, He. reflexivity. }
  repeat split; try assumption.
  apply Qltb_proper, Hdiff.
Qed.

(** * The engine in binary64 *)

(** ** Binary64 arithmetic *)

Lemma SFeqb_refl_finite s m e :
  SFeqb (S754_finite s m e) (S754_finite s m e) = true.
Proof.
  unfold SFeqb, SFcompare. rewrite Z.compare_refl.
  change (Pos.compare_cont Eq m m) with (Pos.compare m m).
  rewrite Pos.compare_refl. destruct s; reflexivity.
Qed.

Lemma Prim2SF_zero : Prim2SF 0%float = S754_zero false.
Proof. reflexivity. Qed.

Lemma is_nan_spec x :
  is_nan x = match Prim2SF x with S754_nan => true | _ => false end.
Proof.
  unfold is_nan. rewrite FloatAxioms.eqb_spec.
  destruct (Prim2SF x) as [[]|[]| |s m e]; try reflexivity.
  rewrite SFeqb_refl_finite. reflexivity.
Qed.

Lemma is_infinity_spec x :
  is_infinity x
  = match Prim2SF x with S754_infinity _ => true | _ => false end.
Proof.
  unfold is_infinity. rewrite FloatAxioms.eqb_spec, FloatAxioms.abs_spec.
  change (Prim2SF infinity) with (S754_infinity false).
  destruct (Prim2SF x) as [[]|[]| |s m e]; reflexivity.
Qed.

Lemma is_finite_spec x :
  is_finite x
  = match Prim2SF x with
    | S754_zero _ | S754_finite _ _ _ => true
    | _ => false
    end.
Proof.
  unfold is_finite. rewrite is_nan_spec, is_infinity_spec.
  destruct (Prim2SF x) as [[]|[]| |s m e]; reflexivity.
Qed.

Lemma SFsub_SFadd_opp x y : SF64sub x y = SF64add x (SFopp y).
Proof.
  unfold SF64sub, SF64add, SFsub, SFadd, SFopp.
  destruct x as [[]|[]| |sx mx ex], y as [[]|[]| |sy my ey]; try reflexivity.
  destruct sy; simpl; reflexivity.
Qed.

(** Subtracting is adding the opposite, for all doubles. *)
Lemma sub_add_opp (x y : float) : (x - y = x + (- y))%float.
Proof.
  apply Prim2SF_inj. rewrite FloatAxioms.sub_spec, FloatAxioms.add_spec, FloatAxioms.opp_spec.
  apply SFsub_SFadd_opp.
Qed.

(** A double minus itself is 0 when it is finite and NaN otherwise. *)
Lemma sub_diag (x : float) : (x - x)%float = if is_finite x then 0%float else nan.
Proof.
  apply Prim2SF_inj. rewrite FloatAxioms.sub_spec, is_finite_spec.
  destruct (Prim2SF x) as [[]|[]| |s m e]; try reflexivity.
  unfold SF64sub, SFsub. rewrite Z.sub_diag. reflexivity.
Qed.

Lemma add_sub_cancel_zero (a : float) :
  is_finite a = true -> ((0 + a) - a)%float = 0%float.
Proof.
  intros Hfin. rewrite is_finite_spec in Hfin.
  apply Prim2SF_inj. rewrite FloatAxioms.sub_spec, FloatAxioms.add_spec, Prim2SF_zero.
  destruct (Prim2SF a) as [[]|[]| |s m e]; try discriminate Hfin;
    try reflexivity.
  unfold SF64sub, SF64add, SFsub, SFadd. rewrite Z.sub_diag. reflexivity.
Qed.

Lemma sub_add_cancel_zero (a : float) :
  is_finite a = true -> ((0 - a) + a)%float = 0%float.
Proof.
  intros Hfin. rewrite is_finite_spec in Hfin.
  apply Prim2SF_inj. rewrite FloatAxioms.add_spec, FloatAxioms.sub_spec, Prim2SF_zero.
  destruct (Prim2SF a) as [[]|[]| |s m e]; try discriminate Hfin;
    try reflexivity.
  unfold SF64sub, SF64add, SFsub, SFadd.
  destruct s; cbn [negb cond_Zopp];
    rewrite ?Z.add_opp_diag_l, ?Z.add_opp_diag_r; reflexivity.
Qed.

(** [0 <= b] fails exactly when [b] is below 0 or is NaN. *)
Lemma leb_zero (b : float) :
  (0 <=? b)%float = negb ((b <? 0)%float || is_nan b).
Proof.
  rewrite FloatAxioms.leb_spec, FloatAxioms.ltb_spec, is_nan_spec, Prim2SF_zero.
  destruct (Prim2SF b) as [[]|[]| |[] m e]; reflexivity.
Qed.

(** ** Sums in binary64 *)

Lemma fold_left_add_map {A} (f : A -> float) (xs : list A) (acc : float) :
  fold_left (fun sum x => (sum + f x)%float) xs acc
  = fold_left add (map f xs) acc.
Proof.
  revert acc. induction xs as [|x xs IH]; intros acc; [reflexivity|].
  simpl. apply IH.
Qed.

Lemma reduceSum64_sum {A} (f : A -> float) (xs : list A) :
  Binary64.reduceSum f xs = Spec64.sum (map f xs).
Proof. apply fold_left_add_map. Qed.

Lemma filter_bool_Prop {A} (p : A -> bool) (P : A -> Prop)
    `{!forall x, Decision (P x)} (xs : list A) :
  (forall x, p x = true <-> P x) -> List.filter p xs = filter P xs.
Proof.
  intros Hp. induction xs as [|x xs IH]; [reflexivity|].
  rewrite filter_cons. simpl.
  destruct (p x) eqn:Hx, (decide (P x)) as [HP|HP].
  - rewrite IH. reflexivity.
  - apply Hp in Hx. contradiction.
  - apply Hp in HP. congruence.
  - exact IH.
Qed.

Lemma reduceSum64_filter {A} (p : A -> bool) (P : A -> Prop)
    `{!forall x, Decision (P x)} (f : A -> float) (xs : list A) :
  (forall x, p x = true <-> P x) ->
  Binary64.reduceSum f (List.filter p xs) = Spec64.sumWhere P f xs.
Proof.
  intros Hp. rewrite reduceSum64_sum, (filter_bool_Prop p P xs Hp).
  reflexivity.
Qed.

Lemma sum64_snoc (xs : list float) (x : float) :
  Spec64.sum (xs ++ [x]) = (Spec64.sum xs + x)%float.
Proof. unfold Spec64.sum. rewrite fold_left_app. reflexivity. Qed.

(** ** Account balances in binary64 *)

Lemma postTransaction64_postings accountId accountType balance t :
  Binary64.postTransaction accountId accountType balance t
  = fold_left add
      ((if decide (Binary64.Transaction.debitAccount t = accountId)
        then [Spec64.debited accountType (Binary64.Transaction.amount t)]
        else [])
       ++ (if decide (Binary64.Transaction.creditAccount t = accountId)
           then [Spec64.credited accountType (Binary64.Transaction.amount t)]
           else []))%list balance.
Proof.
  unfold Binary64.postTransaction, Spec64.debited, Spec64.credited.
  rewrite debitIncreases_normalDebit.
  destruct (decide (Binary64.Transaction.debitAccount t = accountId)) as [Hd|Hd];
  destruct (decide (Binary64.Transaction.creditAccount t = accountId))
    as [Hc|Hc];
  [ apply String.eqb_eq in Hd | apply String.eqb_eq in Hd
  | apply String.eqb_neq in Hd | apply String.eqb_neq in Hd ];
  [ apply String.eqb_eq in Hc | apply String.eqb_neq in Hc
  | apply String.eqb_eq in Hc | apply String.eqb_neq in Hc ];
  rewrite Hd, Hc; destruct (Spec.normalDebit accountType); simpl;
    rewrite ?sub_add_opp; reflexivity.
Qed.

Lemma fold_postTransaction64 accountId accountType transactions balance :
  fold_left (Binary64.postTransaction accountId accountType) transactions
    balance
  = fold_left add (Spec64.postings accountId accountType transactions) balance.
Proof.
  revert balance. unfold Spec64.postings.
  induction transactions as [|t ts IH]; intros balance; [reflexivity|].
  simpl. rewrite fold_left_app, <- postTransaction64_postings. apply IH.
Qed.

(** C1, as the code has it.  In binary64 [calculateAccountBalance] returns
    the contributions of the claim (for a debit of the account, plus the
    amount for asset and expense accounts and minus the amount otherwise; for
    a credit, the opposite signs) added up from 0 in ledger order, every
    addition rounded.  A single transaction of 500 debiting "cash" and
    crediting "revenue" gives "cash", an asset, and "revenue", a revenue
    account, the balance 500.  In exact arithmetic the result is the sum of
    the contributions. *)
Theorem calculateAccountBalance_accumulates :
  (forall accountId accountType transactions,
     Binary64.calculateAccountBalance accountId accountType transactions
     = Spec64.accountBalance accountId accountType transactions)
  /\ (forall id date description type category contact contactType,
        let transactions :=
          [Binary64.Transaction.mk id date description 500%float type
             "cash" "revenue" category contact contactType] in
        Binary64.calculateAccountBalance "cash" Asset transactions = 500%float
        /\ Binary64.calculateAccountBalance "revenue" Revenue transactions
           = 500%float)
  /\ (forall accountId accountType transactions,
        BalanceEngine.calculateAccountBalance accountId accountType
          transactions
        == Spec.accountBalance accountId accountType transactions).
Proof.
  split; [|split].
  - intros. apply fold_postTransaction64.
  - intros. split; reflexivity.
  - intros accountId accountType transactions.
    rewrite calculateAccountBalance_postings, accountBalance_postings.
    reflexivity.
Qed.

(** Where the sum is not a double, the result is not the sum: debits of
    2^53 and 1 give 2^53, debits of 0.1 and 0.2 give 0.30000000000000004. *)
Lemma calculateAccountBalance_rounds :
  (Binary64.calculateAccountBalance "cash" Asset
     [entry64 "cash" "sales" twoTo53; entry64 "cash" "sales" 1%float]
   = twoTo53
   /\ ~ Spec64.hasValue
          (Binary64.calculateAccountBalance "cash" Asset
             [entry64 "cash" "sales" twoTo53; entry64 "cash" "sales" 1%float])
          (Spec64.exactSum [twoTo53; 1%float]))
  /\ (Binary64.calculateAccountBalance "cash" Asset
        [entry64 "cash" "sales" tenth; entry64 "cash" "sales" fifth]
      = 0x1.3333333333334p-2%float
      /\ ~ Spec64.hasValue
             (Binary64.calculateAccountBalance "cash" Asset
                [entry64 "cash" "sales" tenth; entry64 "cash" "sales" fifth])
             (Spec64.exactSum [tenth; fifth])).
Proof.
  repeat split; try reflexivity;
    intros H; vm_compute in H; discriminate H.
Qed.

(** ** The double-entry validator in binary64 *)

(** C2, as the code has it.  For every ledger, [validateTransactionBalance]
    reports the same number as total debits and as total credits: the amounts
    added up from 0 in ledger order.  When that total is finite the
    difference is 0 and the ledger is reported valid; when it is an infinity
    or NaN the difference is NaN and the ledger is reported invalid.  The
    empty ledger gives [{isValid: true, totalDebits: 0, totalCredits: 0,
    difference: 0}]. *)
Theorem validateTransactionBalance_finite_total :
  (forall transactions,
     let report := Binary64.validateTransactionBalance transactions in
     let total :=
       Spec64.sum (map Binary64.Transaction.amount transactions) in
     Binary64.LedgerCheck.totalDebits report = total
     /\ Binary64.LedgerCheck.totalCredits report = total
     /\ (is_finite total = true ->
         Binary64.LedgerCheck.difference report = 0%float
         /\ Binary64.LedgerCheck.isValid report = true)
     /\ (is_finite total = false ->
         Binary64.LedgerCheck.difference report = nan
         /\ Binary64.LedgerCheck.isValid report = false))
  /\ Binary64.validateTransactionBalance []
     = Binary64.LedgerCheck.mk true 0%float 0%float 0%float.
Proof.
  split; [|reflexivity].
  intros transactions. cbv zeta.
  unfold Binary64.validateTransactionBalance.
  cbn [Binary64.LedgerCheck.totalDebits Binary64.LedgerCheck.totalCredits
       Binary64.LedgerCheck.difference Binary64.LedgerCheck.isValid].
  rewrite reduceSum64_sum, sub_diag.
  split; [reflexivity|]. split; [reflexivity|].
  split; intros Hfin; rewrite Hfin; split; reflexivity.
Qed.

Lemma validateTransactionBalance_finite_total_witness :
  let report :=
    Binary64.validateTransactionBalance
      [entry64 "cash" "sales" tenth; entry64 "rent" "cash" fifth] in
  Binary64.LedgerCheck.difference report = 0%float
  /\ Binary64.LedgerCheck.isValid report = true.
Proof.
  apply (proj1 validateTransactionBalance_finite_total
           [entry64 "cash" "sales" tenth; entry64 "rent" "cash" fifth]).
  reflexivity.
Defined.

(** Two amounts of 2^1023 add up to Infinity: the ledger is reported
    invalid, with difference NaN. *)
Lemma validateTransactionBalance_overflow :
  let report :=
    Binary64.validateTransactionBalance
      [entry64 "cash" "sales" twoTo1023; entry64 "cash" "sales" twoTo1023] in
  Binary64.LedgerCheck.isValid report = false
  /\ Binary64.LedgerCheck.totalDebits report = infinity
  /\ Binary64.LedgerCheck.totalCredits report = infinity
  /\ Binary64.LedgerCheck.difference report = nan.
Proof. repeat split; reflexivity. Qed.

(** ** Contact balances in binary64 *)

Lemma sumWhere64_none {A} (P : A -> Prop) `{!forall x, Decision (P x)}
    (f : A -> float) (xs : list A) :
  Forall (fun x => ~ P x) xs -> Spec64.sumWhere P f xs = 0%float.
Proof.
  intros Hnone. unfold Spec64.sumWhere.
  replace (filter P xs) with (@nil A); [reflexivity|].
  induction Hnone as [|x xs Hx _ IH]; [reflexivity|].
  rewrite filter_cons. destruct (decide (P x)); [contradiction|exact IH].
Qed.

Lemma sumWhere64_snoc {A} (P : A -> Prop) `{!forall x, Decision (P x)}
    (f : A -> float) (xs : list A) (x : A) :
  Spec64.sumWhere P f (xs ++ [x])
  = if decide (P x) then (Spec64.sumWhere P f xs + f x)%float
    else Spec64.sumWhere P f xs.
Proof.
  unfold Spec64.sumWhere. rewrite filter_app, filter_cons, filter_nil.
  destruct (decide (P x)).
  - rewrite map_app. apply sum64_snoc.
  - rewrite app_nil_r. reflexivity.
Qed.

Lemma customerInvoice_test64 customerId inv :
  String.eqb (Binary64.Invoice.customerId inv) customerId
  && negb (InvoiceStatus_eqb (Binary64.Invoice.status inv) Paid) = true
  <-> Binary64.Invoice.customerId inv = customerId
      /\ Binary64.Invoice.status inv <> Paid.
Proof.
  rewrite andb_true_iff, negb_true_iff, <- not_true_iff_false,
    String.eqb_eq, InvoiceStatus_eqb_spec.
  reflexivity.
Qed.

Lemma contactTransaction_test64 contactId kind type t :
  optStringIs (Binary64.Transaction.contact t) contactId
  && optContactTypeIs (Binary64.Transaction.contactType t) kind
  && TransactionType_eqb (Binary64.Transaction.type t) type = true
  <-> Binary64.Transaction.contact t = Some contactId
      /\ Binary64.Transaction.contactType t = Some kind
      /\ Binary64.Transaction.type t = type.
Proof.
  rewrite !andb_true_iff, optStringIs_spec, optContactTypeIs_spec,
    TransactionType_eqb_spec.
  tauto.
Qed.

Lemma vendorPayment_test64 vendorId t :
  optStringIs (Binary64.Transaction.contact t) vendorId
  && optContactTypeIs (Binary64.Transaction.contactType t) Vendor
  && includes (toLowerCase (Binary64.Transaction.description t)) "payment"
     = true
  <-> Binary64.Transaction.contact t = Some vendorId
      /\ Binary64.Transaction.contactType t = Some Vendor
      /\ Spec.containsIgnoringCase (Binary64.Transaction.description t)
           "payment".
Proof.
  rewrite !andb_true_iff, optStringIs_spec, optContactTypeIs_spec,
    mentions_payment.
  tauto.
Qed.

Lemma calculateCustomerBalance64_totals customerId invoices transactions :
  Binary64.calculateCustomerBalance customerId invoices transactions
  = (0 + Spec64.unpaidTotal customerId invoices
     - Spec64.incomeTotal customerId transactions)%float.
Proof.
  unfold Binary64.calculateCustomerBalance, Spec64.unpaidTotal,
    Spec64.incomeTotal.
  cbv zeta.
  rewrite (reduceSum64_filter _ _ _ _ (customerInvoice_test64 customerId)).
  rewrite (reduceSum64_filter _ _ _ _
             (contactTransaction_test64 customerId Customer TxIncome)).
  reflexivity.
Qed.

(** C4, as the code has it.  In binary64 [calculateCustomerBalance] is 0
    plus the total of the amounts of the customer's invoices that are not
    paid, added up from 0 in list order with every addition rounded, minus
    the total,
    added up the same way, of the amounts of the income transactions whose
    contact is this customer.  Nothing clamps it, so it can be negative; when
    no invoice and no transaction match, it is 0.  In exact arithmetic it is
    the difference of the two sums. *)
Theorem calculateCustomerBalance_accumulates :
  (forall customerId invoices transactions,
     Binary64.calculateCustomerBalance customerId invoices transactions
     = (0 + Spec64.unpaidTotal customerId invoices
        - Spec64.incomeTotal customerId transactions)%float)
  /\ (exists customerId invoices transactions,
        (Binary64.calculateCustomerBalance customerId invoices transactions
         <? 0)%float = true)
  /\ (forall customerId invoices transactions,
        Forall (fun inv => ~ (Binary64.Invoice.customerId inv = customerId
                              /\ Binary64.Invoice.status inv <> Paid))
               invoices ->
        Forall (fun t => ~ (Binary64.Transaction.contact t = Some customerId
                            /\ Binary64.Transaction.contactType t
                               = Some Customer
                            /\ Binary64.Transaction.type t = TxIncome))
               transactions ->
        Binary64.calculateCustomerBalance customerId invoices transactions
        = 0%float)
  /\ (forall customerId invoices transactions,
        BalanceEngine.calculateCustomerBalance customerId invoices
          transactions
        == Spec.customerBalance customerId invoices transactions).
Proof.
  split; [exact calculateCustomerBalance64_totals|]. split; [|split].
  - exists "c1", [],
      [contactEntry64 "c1" Customer TxIncome "settled" 200%float].
    reflexivity.
  - intros customerId invoices transactions Hinv Htxn.
    rewrite calculateCustomerBalance64_totals.
    unfold Spec64.unpaidTotal, Spec64.incomeTotal.
    rewrite (sumWhere64_none _ _ _ Hinv), (sumWhere64_none _ _ _ Htxn).
    reflexivity.
  - exact calculateCustomerBalance_sums.
Qed.

Lemma calculateCustomerBalance_accumulates_witness :
  Binary64.calculateCustomerBalance "c1"
    [invoice64 "c1" 120%float Paid; invoice64 "c2" 80%float Sent]
    [contactEntry64 "c1" Customer TxExpense "refund" 15%float;
     contactEntry64 "v1" Vendor TxExpense "chairs" 300%float]
  = 0%float.
Proof.
  apply (proj1 (proj2 (proj2 calculateCustomerBalance_accumulates)) "c1").
  - repeat constructor; intros [Hid Hstatus]; vm_compute in Hid, Hstatus;
      congruence.
  - repeat constructor; intros (Hc & Hk & Hty); vm_compute in Hc, Hk, Hty;
      congruence.
Defined.

(** Unpaid invoices of 2^53 and 1 give the balance 2^53, which is not their
    sum. *)
Lemma calculateCustomerBalance_rounds :
  Binary64.calculateCustomerBalance "c1"
    [invoice64 "c1" twoTo53 Sent; invoice64 "c1" 1%float Sent] []
  = twoTo53
  /\ ~ Spec64.hasValue
         (Binary64.calculateCustomerBalance "c1"
            [invoice64 "c1" twoTo53 Sent; invoice64 "c1" 1%float Sent] [])
         (Spec64.exactSum [twoTo53; 1%float]).
Proof.
  split; [reflexivity|]. intros H. vm_compute in H. discriminate H.
Qed.

Lemma calculateVendorBalance64_totals
    `{!forall s pat, Decision (Spec.containsIgnoringCase s pat)}
    vendorId transactions :
  Binary64.calculateVendorBalance vendorId transactions
  = (0 + Spec64.expenseTotal vendorId transactions
     - Spec64.paymentTotal vendorId transactions)%float.
Proof.
  unfold Binary64.calculateVendorBalance, Spec64.expenseTotal,
    Spec64.paymentTotal.
  cbv zeta.
  rewrite (reduceSum64_filter _ _ _ _
             (contactTransaction_test64 vendorId Vendor TxExpense)).
  rewrite (reduceSum64_filter _ _ _ _ (vendorPayment_test64 vendorId)).
  reflexivity.
Qed.

(** C5, as the code has it.  In binary64 [calculateVendorBalance] is 0 plus
    the total of the amounts of the expense transactions whose contact is
    this vendor, added up from 0 in ledger order with every addition rounded,
    minus the total, added up the same way, of the amounts of the
    transactions of this vendor whose description contains "payment" in any
    mix of upper and lower case; when no transaction matches either filter it
    is 0.  In exact arithmetic it is the difference of the two sums. *)
Theorem calculateVendorBalance_accumulates
    `{!forall s pat, Decision (Spec.containsIgnoringCase s pat)} :
  (forall vendorId transactions,
     Binary64.calculateVendorBalance vendorId transactions
     = (0 + Spec64.expenseTotal vendorId transactions
        - Spec64.paymentTotal vendorId transactions)%float)
  /\ (forall vendorId transactions,
        Forall (fun t => ~ (Binary64.Transaction.contact t = Some vendorId
                            /\ Binary64.Transaction.contactType t
                               = Some Vendor
                            /\ Binary64.Transaction.type t = TxExpense))
               transactions ->
        Forall (fun t => ~ (Binary64.Transaction.contact t = Some vendorId
                            /\ Binary64.Transaction.contactType t
                               = Some Vendor
                            /\ Spec.containsIgnoringCase
                                 (Binary64.Transaction.description t)
                                 "payment"))
               transactions ->
        Binary64.calculateVendorBalance vendorId transactions = 0%float)
  /\ (forall vendorId transactions,
        BalanceEngine.calculateVendorBalance vendorId transactions
        == Spec.vendorBalance vendorId transactions).
Proof.
  split; [exact calculateVendorBalance64_totals|]. split.
  - intros vendorId transactions Hexp Hpay.
    rewrite calculateVendorBalance64_totals.
    unfold Spec64.expenseTotal, Spec64.paymentTotal.
    rewrite (sumWhere64_none _ _ _ Hexp), (sumWhere64_none _ _ _ Hpay).
    reflexivity.
  - exact calculateVendorBalance_sums.
Qed.

Lemma calculateVendorBalance_accumulates_witness :
  Binary64.calculateVendorBalance "v1"
    [contactEntry64 "v2" Vendor TxExpense "Down payment" 70%float;
     contactEntry64 "c1" Customer TxIncome "Payment received" 200%float]
  = 0%float.
Proof.
  apply (proj1 (proj2 (calculateVendorBalance_accumulates
                         (H := containsIgnoringCase_dec))) "v1").
  - repeat constructor; intros (Hc & Hk & Hty); vm_compute in Hc, Hk, Hty;
      congruence.
  - repeat constructor; intros (Hc & Hk & _); vm_compute in Hc, Hk;
      congruence.
Defined.

(** Expenses of 0.1 and 0.2 give the balance 0.30000000000000004, which is
    not their sum. *)
Lemma calculateVendorBalance_rounds :
  Binary64.calculateVendorBalance "v1"
    [contactEntry64 "v1" Vendor TxExpense "chairs" tenth;
     contactEntry64 "v1" Vendor TxExpense "desk" fifth]
  = 0x1.3333333333334p-2%float
  /\ ~ Spec64.hasValue
         (Binary64.calculateVendorBalance "v1"
            [contactEntry64 "v1" Vendor TxExpense "chairs" tenth;
             contactEntry64 "v1" Vendor TxExpense "desk" fifth])
         (Spec64.exactSum [tenth; fifth]).
Proof.
  split; [reflexivity|]. intros H. vm_compute in H. discriminate H.
Qed.

(** C8, as the code has it.  One more transaction of the vendor whose
    description contains "payment" in any case enters the payment total
    whatever its type is, and enters the expense total as well exactly when
    its type is expense: in binary64 the new balance is 0 plus the expense
    total, with the amount added when the type is expense, minus the payment
    total with the amount added, every operation rounded.  In exact arithmetic the
    transaction lowers the balance by its amount when its type is not
    expense (income, for one) and leaves it unchanged when it is. *)
Theorem calculateVendorBalance_payment_totals
    `{!forall s pat, Decision (Spec.containsIgnoringCase s pat)} :
  (forall vendorId (earlier : list Binary64.Transaction.t)
          (t : Binary64.Transaction.t),
     Binary64.Transaction.contact t = Some vendorId ->
     Binary64.Transaction.contactType t = Some Vendor ->
     Spec.containsIgnoringCase (Binary64.Transaction.description t)
       "payment" ->
     (Binary64.Transaction.type t <> TxExpense ->
      Binary64.calculateVendorBalance vendorId (earlier ++ [t])
      = (0 + Spec64.expenseTotal vendorId earlier
         - (Spec64.paymentTotal vendorId earlier
            + Binary64.Transaction.amount t))%float)
     /\ (Binary64.Transaction.type t = TxExpense ->
         Binary64.calculateVendorBalance vendorId (earlier ++ [t])
         = (0 + (Spec64.expenseTotal vendorId earlier
                 + Binary64.Transaction.amount t)
            - (Spec64.paymentTotal vendorId earlier
               + Binary64.Transaction.amount t))%float))
  /\ (forall vendorId (xs ys : list Transaction.t) (t : Transaction.t),
        Transaction.contact t = Some vendorId ->
        Transaction.contactType t = Some Vendor ->
        Spec.containsIgnoringCase (Transaction.description t) "payment" ->
        (Transaction.type t <> TxExpense ->
         BalanceEngine.calculateVendorBalance vendorId (xs ++ t :: ys)
         == BalanceEngine.calculateVendorBalance vendorId (xs ++ ys)
            - Transaction.amount t)
        /\ (Transaction.type t = TxExpense ->
            BalanceEngine.calculateVendorBalance vendorId (xs ++ t :: ys)
            == BalanceEngine.calculateVendorBalance vendorId (xs ++ ys))).
Proof.
  split.
  - intros vendorId earlier t Hc Hk Hpay.
    rewrite calculateVendorBalance64_totals.
    unfold Spec64.expenseTotal, Spec64.paymentTotal.
    rewrite !sumWhere64_snoc.
    destruct (decide (Binary64.Transaction.contact t = Some vendorId
                      /\ Binary64.Transaction.contactType t = Some Vendor
                      /\ Spec.containsIgnoringCase
                           (Binary64.Transaction.description t) "payment"));
      [|tauto].
    destruct (decide (Binary64.Transaction.contact t = Some vendorId
                      /\ Binary64.Transaction.contactType t = Some Vendor
                      /\ Binary64.Transaction.type t = TxExpense));
      split; intros Hty; first [reflexivity|tauto].
  - exact calculateVendorBalance_payment_any_type.
Qed.

Lemma calculateVendorBalance_payment_totals_witness :
  Binary64.calculateVendorBalance "v1"
    ([contactEntry64 "v1" Vendor TxExpense "chairs" tenth]
     ++ [contactEntry64 "v1" Vendor TxIncome "Rebate PAYMENT" fifth])
  = (0 + Spec64.expenseTotal "v1"
           [contactEntry64 "v1" Vendor TxExpense "chairs" tenth]
     - (Spec64.paymentTotal (H := containsIgnoringCase_dec) "v1"
          [contactEntry64 "v1" Vendor TxExpense "chairs" tenth]
        + fifth))%float.
Proof.
  apply (proj1 (calculateVendorBalance_payment_totals
                  (H := containsIgnoringCase_dec)) "v1"
           [contactEntry64 "v1" Vendor TxExpense "chairs" tenth]
           (contactEntry64 "v1" Vendor TxIncome "Rebate PAYMENT" fifth));
    try reflexivity.
  - exists "Rebate ", "PAYMENT", EmptyString.
    split; [reflexivity|apply toLowerCase_sameIgnoringCase; reflexivity].
  - discriminate.
Defined.

(** A bill of 0.1 followed by an expense of 0.2 described as a payment gives
    0.10000000000000003, not the 0.1 of the bill alone; and after bills of
    0.1 and 0.2 and a payment of 0.1, an income of 0.2 described as a payment
    gives 0, not the earlier balance minus 0.2. *)
Lemma calculateVendorBalance_payment_rounds :
  (Binary64.calculateVendorBalance "v1"
     [contactEntry64 "v1" Vendor TxExpense "chairs" tenth]
   = tenth
   /\ Binary64.calculateVendorBalance "v1"
        [contactEntry64 "v1" Vendor TxExpense "chairs" tenth;
         contactEntry64 "v1" Vendor TxExpense "Payment for chairs" fifth]
      = 0x1.999999999999cp-4%float
   /\ (0x1.999999999999cp-4 =? tenth)%float = false)
  /\ (Binary64.calculateVendorBalance "v1"
        [contactEntry64 "v1" Vendor TxExpense "chairs" tenth;
         contactEntry64 "v1" Vendor TxExpense "desk" fifth;
         contactEntry64 "v1" Vendor TxIncome "payment one" tenth;
         contactEntry64 "v1" Vendor TxIncome "payment two" fifth]
      = 0%float
      /\ (Binary64.calculateVendorBalance "v1"
            [contactEntry64 "v1" Vendor TxExpense "chairs" tenth;
             contactEntry64 "v1" Vendor TxExpense "desk" fifth;
             contactEntry64 "v1" Vendor TxIncome "payment one" tenth]
          - fifth
          =? 0)%float = false).
Proof. repeat split; reflexivity. Qed.

(** ** A transaction with the same account on both sides, in binary64 *)

Lemma calculateAccountBalance64_snoc accountId accountType transactions t :
  Binary64.calculateAccountBalance accountId accountType (transactions ++ [t])
  = Binary64.postTransaction accountId accountType
      (Binary64.calculateAccountBalance accountId accountType transactions) t.
Proof.
  unfold Binary64.calculateAccountBalance. rewrite fold_left_app. reflexivity.
Qed.

Lemma postTransaction64_self accountType balance t :
  Binary64.Transaction.debitAccount t = Binary64.Transaction.creditAccount t ->
  Binary64.postTransaction (Binary64.Transaction.debitAccount t) accountType
    balance t
  = if BalanceEngine.debitIncreases accountType
    then (balance + Binary64.Transaction.amount t
          - Binary64.Transaction.amount t)%float
    else (balance - Binary64.Transaction.amount t
          + Binary64.Transaction.amount t)%float.
Proof.
  intros Heq. unfold Binary64.postTransaction.
  rewrite <- Heq, String.eqb_refl.
  destruct (BalanceEngine.debitIncreases accountType); reflexivity.
Qed.

(** C6, as the code has it.  Appending a transaction that debits and credits
    the same account makes the balance [b] of that account [(b + a) - a] for
    asset and expense accounts and [(b - a) + a] for the other types, [a]
    being the amount and every operation rounded to binary64; when [b] is 0
    and the amount is finite this is 0 again, the balance is unchanged.  In
    exact arithmetic the balance is unchanged whatever it was. *)
Theorem calculateAccountBalance_self_posting_rounded :
  (forall accountType (t : Binary64.Transaction.t) transactions,
     Binary64.Transaction.debitAccount t
     = Binary64.Transaction.creditAccount t ->
     let b :=
       Binary64.calculateAccountBalance (Binary64.Transaction.debitAccount t)
         accountType transactions in
     let a := Binary64.Transaction.amount t in
     Binary64.calculateAccountBalance (Binary64.Transaction.debitAccount t)
       accountType (transactions ++ [t])
     = (if BalanceEngine.debitIncreases accountType
        then (b + a - a)%float else (b - a + a)%float)
     /\ (b = 0%float -> is_finite a = true ->
         Binary64.calculateAccountBalance
           (Binary64.Transaction.debitAccount t) accountType
           (transactions ++ [t])
         = 0%float))
  /\ (forall accountType (t : Transaction.t) transactions,
        Transaction.debitAccount t = Transaction.creditAccount t ->
        BalanceEngine.calculateAccountBalance (Transaction.debitAccount t)
          accountType (transactions ++ [t])
        == BalanceEngine.calculateAccountBalance (Transaction.debitAccount t)
             accountType transactions).
Proof.
  split.
  - intros accountType t transactions Heq. cbv zeta.
    rewrite calculateAccountBalance64_snoc, postTransaction64_self by exact Heq.
    split; [reflexivity|]. intros -> Hfin.
    destruct (BalanceEngine.debitIncreases accountType).
    + apply add_sub_cancel_zero, Hfin.
    + apply sub_add_cancel_zero, Hfin.
  - intros accountType t transactions Heq.
    rewrite !calculateAccountBalance_postings, map_app, total_app. simpl.
    rewrite posting_self by exact Heq. ring.
Qed.

Lemma calculateAccountBalance_self_posting_rounded_witness :
  Binary64.calculateAccountBalance "cash" Liability
    ([entry64 "bank" "capital" tenth] ++ [entry64 "cash" "cash" fifth])
  = 0%float.
Proof.
  apply (proj1 calculateAccountBalance_self_posting_rounded Liability
           (entry64 "cash" "cash" fifth) [entry64 "bank" "capital" tenth]);
    reflexivity.
Defined.

(** After a debit of 0.1, a liability account stands at -0.1; a transaction
    of 0.2 with the account on both sides moves it to
    -0.10000000000000003. *)
Lemma calculateAccountBalance_self_posting_rounds :
  Binary64.calculateAccountBalance "cash" Liability
    [entry64 "cash" "capital" tenth]
  = (- tenth)%float
  /\ Binary64.calculateAccountBalance "cash" Liability
       ([entry64 "cash" "capital" tenth] ++ [entry64 "cash" "cash" fifth])
     = (- 0x1.999999999999cp-4)%float
  /\ (Binary64.calculateAccountBalance "cash" Liability
        ([entry64 "cash" "capital" tenth] ++ [entry64 "cash" "cash" fifth])
      =? Binary64.calculateAccountBalance "cash" Liability
           [entry64 "cash" "capital" tenth])%float = false.
Proof. repeat split; reflexivity. Qed.

(** ** Summary by account type and accounting equation in binary64 *)

Lemma orZero64_mappedBalance (balances : gmap string float) account :
  Binary64.orZero (balances !! Binary64.Account.id account)
  = Spec64.mappedBalance balances account.
Proof.
  unfold Binary64.orZero, Spec64.mappedBalance.
  destruct (balances !! Binary64.Account.id account) as [b|]; [|reflexivity].
  destruct (is_zero b), (is_nan b); reflexivity.
Qed.

Lemma Summary64_get_add summary type balance type' :
  Binary64.Summary.get (Binary64.Summary.add summary type balance) type'
  = if decide (type = type')
    then (Binary64.Summary.get summary type' + balance)%float
    else Binary64.Summary.get summary type'.
Proof. destruct type, type'; reflexivity. Qed.

Lemma fold_summary64 (balances : gmap string float) accounts summary type :
  Binary64.Summary.get
    (fold_left (fun summary account =>
       Binary64.Summary.add summary (Binary64.Account.type account)
         (Binary64.orZero (balances !! Binary64.Account.id account)))
       accounts summary) type
  = fold_left add
      (map (Spec64.mappedBalance balances)
           (filter (fun a => Binary64.Account.type a = type) accounts))
      (Binary64.Summary.get summary type).
Proof.
  revert summary. induction accounts as [|a accounts IH]; intros summary;
    [reflexivity|].
  simpl. rewrite IH, Summary64_get_add, filter_cons, orZero64_mappedBalance.
  destruct (decide (Binary64.Account.type a = type)); reflexivity.
Qed.

Lemma getAccountTypeSummary64_get accounts (balances : gmap string float) type :
  Binary64.Summary.get (Binary64.getAccountTypeSummary accounts balances) type
  = Spec64.typeTotal type accounts balances.
Proof.
  unfold Binary64.getAccountTypeSummary. rewrite fold_summary64.
  destruct type; reflexivity.
Qed.

(** C7, as the code has it.  In binary64 each of the five buckets returned by
    [getAccountTypeSummary] is the total, added up from 0 in list order with
    every addition rounded, over the accounts of that type, of the balance
    the map holds for the account's id, where an account whose id is missing
    from the map enters as 0 (and so does an entry that is NaN or a zero).
    In exact arithmetic each bucket is the sum of these balances, and an
    account missing from the map changes no bucket. *)
Theorem getAccountTypeSummary_accumulates :
  (forall accounts (balances : gmap string float),
     let summary := Binary64.getAccountTypeSummary accounts balances in
     Binary64.Summary.asset summary = Spec64.typeTotal Asset accounts balances
     /\ Binary64.Summary.liability summary
        = Spec64.typeTotal Liability accounts balances
     /\ Binary64.Summary.equity summary
        = Spec64.typeTotal Equity accounts balances
     /\ Binary64.Summary.revenue summary
        = Spec64.typeTotal Revenue accounts balances
     /\ Binary64.Summary.expense summary
        = Spec64.typeTotal Expense accounts balances)
  /\ (forall (balances : gmap string float) account,
        balances !! Binary64.Account.id account = None ->
        Spec64.mappedBalance balances account = 0%float)
  /\ (forall accounts (balances : gmap string Q),
        let summary := BalanceEngine.getAccountTypeSummary accounts balances in
        Summary.asset summary == Spec.typeTotal Asset accounts balances
        /\ Summary.liability summary
           == Spec.typeTotal Liability accounts balances
        /\ Summary.equity summary == Spec.typeTotal Equity accounts balances
        /\ Summary.revenue summary == Spec.typeTotal Revenue accounts balances
        /\ Summary.expense summary
           == Spec.typeTotal Expense accounts balances)
  /\ (forall accounts (balances : gmap string Q) account type,
        balances !! Account.id account = None ->
        Summary.get
          (BalanceEngine.getAccountTypeSummary (accounts ++ [account]) balances)
          type
        == Summary.get
             (BalanceEngine.getAccountTypeSummary accounts balances) type).
Proof.
  split; [|split; [|exact getAccountTypeSummary_spec]].
  - intros accounts balances. cbv zeta. repeat split.
    + exact (getAccountTypeSummary64_get accounts balances Asset).
    + exact (getAccountTypeSummary64_get accounts balances Liability).
    + exact (getAccountTypeSummary64_get accounts balances Equity).
    + exact (getAccountTypeSummary64_get accounts balances Revenue).
    + exact (getAccountTypeSummary64_get accounts balances Expense).
  - intros balances account Hnone. unfold Spec64.mappedBalance.
    rewrite Hnone. reflexivity.
Qed.

Lemma getAccountTypeSummary_accumulates_witness :
  Spec64.mappedBalance (<["a1" := tenth]> ∅) (account64 "r1" Revenue)
  = 0%float
  /\ Summary.get
       (BalanceEngine.getAccountTypeSummary (chartOfAccounts ++ [salesAccount])
          balancedBooks) Revenue
     == Summary.get
          (BalanceEngine.getAccountTypeSummary chartOfAccounts balancedBooks)
          Revenue.
Proof.
  destruct getAccountTypeSummary_accumulates as (_ & Hmissing & _ & Hexact).
  split.
  - apply Hmissing. reflexivity.
  - apply Hexact. vm_compute. reflexivity.
Defined.

(** Balances of 0.1 and 0.2 give a bucket of 0.30000000000000004, which is
    not their sum; and a balance stored as NaN enters its bucket as 0. *)
Lemma getAccountTypeSummary_rounds :
  (Binary64.Summary.asset
     (Binary64.getAccountTypeSummary
        [account64 "a" Asset; account64 "b" Asset]
        (<["a" := tenth]> (<["b" := fifth]> ∅)))
   = 0x1.3333333333334p-2%float
   /\ ~ Spec64.hasValue
          (Binary64.Summary.asset
             (Binary64.getAccountTypeSummary
                [account64 "a" Asset; account64 "b" Asset]
                (<["a" := tenth]> (<["b" := fifth]> ∅))))
          (Spec64.exactSum [tenth; fifth]))
  /\ ((<["a" := tenth]> (<["b" := nan]> ∅) : gmap string float) !! "b"
      = Some nan
      /\ Binary64.Summary.asset
           (Binary64.getAccountTypeSummary
              [account64 "a" Asset; account64 "b" Asset]
              (<["a" := tenth]> (<["b" := nan]> ∅)))
         = tenth).
Proof.
  repeat split; try reflexivity.
  intros H. vm_compute in H. discriminate H.
Qed.



(** ** Presentation helpers in binary64 *)

(** X13. [getBalanceColorClass] looks at the balance only: for every account
    type, given or not, the class is "text-green-600" exactly when
    [balance >= 0] holds and "text-red-600" exactly when the balance is below
    0 or is NaN. *)
Theorem getBalanceColorClass_sign_or_nan (balance : float)
    (accountType : option AccountType) :
  (Binary64.getBalanceColorClass balance accountType = "text-green-600"
   <-> (0 <=? balance)%float = true)
  /\ (Binary64.getBalanceColorClass balance accountType = "text-red-600"
      <-> (balance <? 0)%float = true \/ is_nan balance = true).
Proof.
  unfold Binary64.getBalanceColorClass.
  assert (Hneg : (0 <=? balance)%float = false
                 <-> (balance <? 0)%float = true \/ is_nan balance = true).
  { rewrite leb_zero, negb_false_iff, orb_true_iff. reflexivity. }
  destruct (optAccountTypeIs accountType Asset
            || optAccountTypeIs accountType Expense);
    destruct (0 <=? balance)%float; split; split; intros H;
    first [ reflexivity
          | discriminate H
          | apply Hneg; reflexivity
          | apply Hneg in H; discriminate H ].
Qed.
